(** * fuel.config_parser: the layered configuration resolver

    A shallow embedding of [src/fuel/config_parser.py]: the coercion helpers
    ([extra_downloader_converter], [multiple_paths_parser], [_human_bool]),
    the class [Configuration] ([load_yaml], [__getattr__], [__setattr__],
    [add_config]) and the module-level initialisation of the global
    [config] object, followed by the properties of the resolver. *)

From Stdlib Require Import ZArith Ascii String.
From stdpp Require Import gmap strings list fin_maps.

Local Open Scope string_scope.

(** ** Python values and exceptions *)

(** The Python objects that reach the resolver as raw or coerced values:
    [None], booleans, integers, strings and lists.  Environment variables
    are always strings; values of the YAML file may be of any of these. *)
#[local] Set Warnings "-register-all".
Inductive pyval : Type :=
  | VNone
  | VBool (b : bool)
  | VInt (n : Z)
  | VStr (s : string)
  | VList (l : list pyval).

(** The exceptions the module raises itself ([AttributeError],
    [ConfigurationError], [ValueError]) and those of the interpreter that
    its statements can run into. *)
Inductive error : Type :=
  | AttributeError
  | TypeError
  | ImportError
  | KeyError (key : string)
  | ValueError (msg : string)
  | ConfigurationError (msg : string).

(** A computation that returns or raises. *)
Inductive except (A : Type) : Type :=
  | Raise (e : error)
  | Return (a : A).
Arguments Raise {A} e.
Arguments Return {A} a.

#[global] Instance except_ret : MRet except := @Return.
#[global] Instance except_bind : MBind except := λ A B f m,
  match m with
  | Raise e => Raise e
  | Return a => f a
  end.

(** [bool(value)]: native truthiness. *)
Definition py_bool (value : pyval) : bool :=
  match value with
  | VNone => false
  | VBool b => b
  | VInt n => negb (n =? 0)%Z
  | VStr s => negb (String.length s =? 0)%nat
  | VList l => negb (length l =? 0)%nat
  end.

(** [s.split(sep)] for a separator [sep] of one character, which both
    [" "] and [os.path.pathsep] are. *)
Fixpoint split (sep : ascii) (s : string) : list string :=
  match s with
  | EmptyString => [EmptyString]
  | String c rest =>
      if Ascii.eqb c sep then EmptyString :: split sep rest
      else match split sep rest with
           | piece :: pieces => String c piece :: pieces
           | [] => [String c EmptyString]
           end
  end.

(** [sep.join(pieces)], the inverse that characterises [split]. *)
Fixpoint join (sep : ascii) (pieces : list string) : string :=
  match pieces with
  | [] => EmptyString
  | [piece] => piece
  | piece :: rest => piece ++ String sep (join sep rest)
  end.

(** [c in s] for a character of a string. *)
Fixpoint occurs (c : ascii) (s : string) : bool :=
  match s with
  | EmptyString => false
  | String c' rest => Ascii.eqb c' c || occurs c rest
  end.

(** ** Coercion helpers *)

(** [isinstance(value, six.string_types)] holds of the strings only. *)
Definition extra_downloader_converter (value : pyval) : pyval :=
  match value with
  | VStr s => VList (VStr <$> split " "%char s)
  | _ => value
  end.

Definition _human_bool (value default : pyval) : except pyval :=
  match value with
  | VStr s =>
      if (String.length s =? 0)%nat then Return default
      else if String.eqb s "1" || String.eqb s "True" || String.eqb s "true"
      then Return (VBool true)
      else if String.eqb s "0" || String.eqb s "False" || String.eqb s "false"
      then Return (VBool false)
      else Raise (ValueError
        "string will not be interpreted as bool use 'True'/'False' instead")
  | _ => Return (VBool (py_bool value))
  end.

(** ** The class [Configuration] *)

(** One entry of [self.config]: a dict with the key ['type'] and the
    optional keys ['env_var'], ['default'], ['value'] and ['yaml']; an
    absent key is [None]. *)
Record setting : Type := Setting {
  cs_type : pyval → except pyval;
  cs_env_var : option string;
  cs_default : option pyval;
  cs_value : option pyval;
  cs_yaml : option pyval
}.

(** The instance attribute [config].  [__init__] binds it to a dict of
    settings; since [__setattr__] hands the name ['config'] to
    [object.__setattr__], an assignment [obj.config = v] rebinds it to
    whatever [v] is. *)
Inductive config_attr : Type :=
  | Registry (m : gmap string setting)
  | Clobbered (v : pyval).

(** An instance: the attribute [config] and the rest of its [__dict__]. *)
Record Configuration : Type := MkConfiguration {
  config : config_attr;
  attrs : gmap string pyval
}.

(** Methods that mutate [self] return the instance as it is when they
    return or raise. *)
Definition stateful (A : Type) : Type := Configuration → Configuration * except A.

#[global] Instance stateful_ret : MRet stateful := λ A a self, (self, Return a).
#[global] Instance stateful_bind : MBind stateful := λ A B f m self,
  match m self with
  | (self', Raise e) => (self', Raise e)
  | (self', Return a) => f a self'
  end.

Definition raise {A : Type} (e : error) : stateful A := λ self, (self, Raise e).

(** An expression that only reads [self]. *)
Definition read {A : Type} (f : Configuration → except A) : stateful A :=
  λ self, (self, f self).

(** [key in self.config] *)
Definition contains (key : string) (c : config_attr) : except bool :=
  match c with
  | Registry m => Return (bool_decide (is_Some (m !! key)))
  | Clobbered (VStr s) => Return (bool_decide (is_Some (String.index 0 key s)))
  | Clobbered (VList l) =>
      Return (existsb (λ x, match x with
                            | VStr s => String.eqb s key
                            | _ => false
                            end) l)
  | Clobbered _ => Raise TypeError
  end.

(** [self.config[key]] *)
Definition getitem (key : string) (c : config_attr) : except setting :=
  match c with
  | Registry m =>
      match m !! key with
      | Some config_setting => Return config_setting
      | None => Raise (KeyError key)
      end
  | Clobbered _ => Raise TypeError
  end.

(** [self.config[key] = config_setting] *)
Definition setitem (key : string) (config_setting : setting) : stateful unit :=
  λ self,
  match config self with
  | Registry m =>
      ({| config := Registry (<[key := config_setting]> m); attrs := attrs self |},
       Return ())
  | Clobbered _ => (self, Raise TypeError)
  end.

(** [self.config[key][slot] = v], with [f] the update of the slot. *)
Definition setslot (key : string) (f : setting → setting) : stateful unit :=
  λ self,
  match getitem key (config self) with
  | Return config_setting => setitem key (f config_setting) self
  | Raise e => (self, Raise e)
  end.

Definition with_env_var (env_var : string) (cs : setting) : setting :=
  Setting (cs_type cs) (Some env_var) (cs_default cs) (cs_value cs) (cs_yaml cs).
Definition with_default (default : pyval) (cs : setting) : setting :=
  Setting (cs_type cs) (cs_env_var cs) (Some default) (cs_value cs) (cs_yaml cs).
Definition with_value (value : pyval) (cs : setting) : setting :=
  Setting (cs_type cs) (cs_env_var cs) (cs_default cs) (Some value) (cs_yaml cs).
Definition with_yaml (value : pyval) (cs : setting) : setting :=
  Setting (cs_type cs) (cs_env_var cs) (cs_default cs) (cs_value cs) (Some value).

(** [Configuration()] *)
Definition __init__ : Configuration :=
  {| config := Registry ∅; attrs := ∅ |}.

(** [object.__setattr__(self, key, value)].  Three names are data
    descriptors of the instance's type and are not bound in its [__dict__]:
    [__class__] takes a class and [__dict__] a dict only, so a value of
    [pyval] raises the type error, and [__weakref__] is not writable. *)
Definition object_setattr (key : string) (value : pyval) : stateful unit :=
  λ self,
  if String.eqb key "config"
  then ({| config := Clobbered value; attrs := attrs self |}, Return ())
  else if String.eqb key "__class__" || String.eqb key "__dict__"
  then (self, Raise TypeError)
  else if String.eqb key "__weakref__"
  then (self, Raise AttributeError)
  else ({| config := config self; attrs := <[key := value]> (attrs self) |},
        Return ()).

(** Python calls [__getattr__] for a read [obj.key] when the usual lookup
    finds no attribute [key]; it is the read of a setting.  [environ] is
    [os.environ] at the time of the read. *)
Definition __getattr__ (environ : gmap string string) (key : string)
    (self : Configuration) : except pyval :=
  if String.eqb key "config" then Raise AttributeError
  else
    registered ← contains key (config self);
    if negb registered then Raise AttributeError
    else
      config_setting ← getitem key (config self);
      match cs_value config_setting with
      | Some value => cs_type config_setting value
      | None =>
          match cs_env_var config_setting ≫= (environ !!.) with
          | Some text => cs_type config_setting (VStr text)
          | None =>
              match cs_yaml config_setting with
              | Some value => cs_type config_setting value
              | None =>
                  match cs_default config_setting with
                  | Some value => cs_type config_setting value
                  | None =>
                      Raise (ConfigurationError
                        ("Configuration not set and no default provided: "
                           ++ key ++ "."))
                  end
              end
          end
      end.

Definition __setattr__ (key : string) (value : pyval) : stateful unit :=
  if String.eqb key "config" then object_setattr key value
  else
    registered ← read (λ self, contains key (config self));
    if registered : bool then setslot key (with_value value)
    else object_setattr key value.

(** [default = None] stands for the sentinel [NOT_SET], [env_var = None]
    for Python's [None]. *)
Definition add_config (key : string) (type_ : pyval → except pyval)
    (default : option pyval) (env_var : option string) : stateful unit :=
  setitem key (Setting type_ None None None None) ;;
  match env_var with
  | Some name => setslot key (with_env_var name)
  | None => mret ()
  end ;;
  match default with
  | Some value => setslot key (with_default value)
  | None => mret ()
  end.

(** The loop of [load_yaml] over the items of the parsed file. *)
Fixpoint load_items (items : list (string * pyval)) : stateful unit :=
  match items with
  | [] => mret ()
  | (key, value) :: rest =>
      registered ← read (λ self, contains key (config self));
      if registered : bool then
        setslot key (with_yaml value) ;; load_items rest
      else raise (ValueError ("Unrecognized config in YAML: " ++ key))
  end.

(** ** The module: the global [config] and its initialisation *)

Section Module.

(** What the module takes from its platform: [os.path.pathsep], the
    builtins [int] and [str], and [os.path.expanduser('~/.fuelrc')]. *)
Variable pathsep : ascii.
Variable int str : pyval → except pyval.
Variable fuelrc : string.

(** [os.environ], and the files of the file system with the mapping
    [yaml.safe_load] parses each into, in the order [.items()] yields. *)
Variable environ : gmap string string.
Variable files : gmap string (list (string * pyval)).

(** [theano.config.floatX], or [None] where [theano] cannot be imported. *)
Variable theano_floatX : option pyval.

Definition multiple_paths_parser (value : pyval) : pyval :=
  match value with
  | VStr s => VList (VStr <$> split pathsep s)
  | _ => value
  end.

Definition yaml_file : string :=
  match environ !! "FUEL_CONFIG" with
  | Some path => path
  | None => fuelrc
  end.

(** [os.path.isfile(yaml_file)] holds of the paths [files] binds. *)
Definition load_yaml : stateful unit :=
  match files !! yaml_file with
  | Some items => load_items items
  | None => mret ()
  end.

(** [from theano import config as theano_config] *)
Definition import_theano : stateful pyval :=
  match theano_floatX with
  | Some value => mret value
  | None => raise ImportError
  end.

(** The registrations of the module, lines 234 to 246. *)
Definition define_options : stateful unit :=
  add_config "data_path" (λ v, Return (multiple_paths_parser v))
    None (Some "FUEL_DATA_PATH") ;;
  add_config "default_seed" int (Some (VInt 1)) None ;;
  add_config "extra_downloaders" (λ v, Return (extra_downloader_converter v))
    (Some (VList [])) (Some "FUEL_EXTRA_DOWNLOADERS") ;;
  add_config "extra_converters" (λ v, Return (extra_downloader_converter v))
    (Some (VList [])) (Some "FUEL_EXTRA_CONVERTERS") ;;
  add_config "floatX" str (Some (VStr "float64")) (Some "FUEL_FLOATX") ;;
  add_config "fuel_uses_theano" (λ v, _human_bool v (VBool true))
    (Some (VBool true)) (Some "FUEL_USES_THEANO").

(** Lines 252 to 255: the default of [floatX] taken from theano. *)
Definition override_floatX : stateful unit :=
  fuel_uses_theano ← read (__getattr__ environ "fuel_uses_theano");
  if py_bool fuel_uses_theano then
    theano_config_floatX ← import_theano;
    setslot "floatX" (with_default theano_config_floatX)
  else mret ().

(** The module body from [config = Configuration()] on, run on the
    fresh instance. *)
Definition module_body : stateful unit :=
  define_options ;; load_yaml ;; override_floatX.

Definition module_init : Configuration * except unit :=
  module_body __init__.

End Module.

(** ** The resolution order as the specification words it *)

(** The first source that is present, in the order given. *)
Fixpoint first_match (sources : list (option pyval)) : option pyval :=
  match sources with
  | [] => None
  | Some raw :: _ => Some raw
  | None :: rest => first_match rest
  end.

(** What the environment holds for a setting: the text of its variable,
    if one was registered and is set. *)
Definition from_environ (environ : gmap string string) (cs : setting)
    : option pyval :=
  match cs_env_var cs with
  | Some name => VStr <$> environ !! name
  | None => None
  end.

(** The four sources of a setting, highest precedence first: explicit
    override, environment variable, YAML overlay, registered default. *)
Definition sources (environ : gmap string string) (cs : setting)
    : list (option pyval) :=
  [cs_value cs; from_environ environ cs; cs_yaml cs; cs_default cs].

Definition not_set (key : string) : error :=
  ConfigurationError
    ("Configuration not set and no default provided: " ++ key ++ ".").

Definition unrecognized (key : string) : error :=
  ValueError ("Unrecognized config in YAML: " ++ key).

(** The registry after the items [pre] of an overlay were stored. *)
Definition yaml_overlay (pre : list (string * pyval))
    (m : gmap string setting) : gmap string setting :=
  foldl (λ acc item, alter (with_yaml item.2) item.1 acc) m pre.

(** The YAML-sourced value of a setting of the instance, if any. *)
Definition yaml_of (key : string) (self : Configuration) : option pyval :=
  match config self with
  | Registry m => m !! key ≫= cs_yaml
  | Clobbered _ => None
  end.

(** An instance with the one setting [floatX], typed by the identity,
    for concrete runs. *)
Definition floatX_only (yaml : option pyval) : Configuration :=
  {| config := Registry {[ "floatX" :=
       Setting Return (Some "FUEL_FLOATX") (Some (VStr "float64")) None yaml ]};
     attrs := ∅ |}.

(** The registry that the registrations of the module build. *)
Definition module_options (pathsep : ascii) (int str : pyval → except pyval)
    : gmap string setting :=
  <[ "fuel_uses_theano" :=
       Setting (λ v, _human_bool v (VBool true)) (Some "FUEL_USES_THEANO")
         (Some (VBool true)) None None ]>
  (<[ "floatX" :=
       Setting str (Some "FUEL_FLOATX") (Some (VStr "float64")) None None ]>
  (<[ "extra_converters" :=
       Setting (λ v, Return (extra_downloader_converter v))
         (Some "FUEL_EXTRA_CONVERTERS") (Some (VList [])) None None ]>
  (<[ "extra_downloaders" :=
       Setting (λ v, Return (extra_downloader_converter v))
         (Some "FUEL_EXTRA_DOWNLOADERS") (Some (VList [])) None None ]>
  (<[ "default_seed" := Setting int None (Some (VInt 1)) None None ]>
  (<[ "data_path" :=
       Setting (λ v, Return (multiple_paths_parser pathsep v))
         (Some "FUEL_DATA_PATH") None None None ]> ∅))))).

(** [s.count(c)] for a character. *)
Fixpoint count_char (c : ascii) (s : string) : nat :=
  match s with
  | EmptyString => 0
  | String c' rest => (if Ascii.eqb c' c then 1 else 0) + count_char c rest
  end.

(** * Properties *)

(** ** Splitting and the coercion helpers *)

Lemma split_nonempty sep s : split sep s ≠ [].
Proof.
  destruct s as [|c rest]; simpl; [done|].
  destruct (Ascii.eqb c sep); [done|].
  by destruct (split sep rest).
Qed.

Lemma join_cons sep piece rest :
  rest ≠ [] → join sep (piece :: rest) = piece ++ String sep (join sep rest).
Proof. by destruct rest. Qed.

Lemma join_split sep s : join sep (split sep s) = s.
Proof.
  induction s as [|c rest IH]; simpl; [done|].
  destruct (Ascii.eqb c sep) eqn:Hc.
  - apply Ascii.eqb_eq in Hc as ->.
    rewrite join_cons by apply split_nonempty. simpl. by rewrite IH.
  - pose proof (split_nonempty sep rest) as Hne.
    destruct (split sep rest) as [|piece pieces]; [done|].
    rewrite <- IH. by destruct pieces.
Qed.

Lemma split_pieces sep s : Forall (λ piece, occurs sep piece = false) (split sep s).
Proof.
  induction s as [|c rest IH]; simpl.
  - by constructor.
  - destruct (Ascii.eqb c sep) eqn:Hc.
    + by constructor.
    + destruct (split sep rest) as [|piece pieces].
      * constructor; [simpl; by rewrite Hc | constructor].
      * inversion_clear IH as [|? ? Hpiece Hpieces].
        constructor; [simpl; by rewrite Hc, Hpiece | done].
Qed.

Lemma human_bool_other s default :
  s ∉ [""; "1"; "True"; "true"; "0"; "False"; "false"] →
  ∃ msg, _human_bool (VStr s) default = Raise (ValueError msg).
Proof.
  rewrite !not_elem_of_cons. intros (He & H1 & H2 & H3 & H4 & H5 & H6 & _).
  unfold _human_bool.
  destruct s as [|c rest]; [done|]. cbn [String.length Nat.eqb].
  apply String.eqb_neq in H1, H2, H3, H4, H5, H6.
  rewrite H1, H2, H3, H4, H5, H6. simpl. eauto.
Qed.

(** C6. The semantic boolean parser: a boolean comes back as it is; the
    strings "1", "True", "true" give true and "0", "False", "false" give
    false; the empty string gives the supplied default; any other string
    raises a value error; a value that is neither a string nor a boolean is
    coerced by its truthiness. *)
Theorem human_bool_contract (default : pyval) :
  (∀ b, _human_bool (VBool b) default = Return (VBool b)) ∧
  (∀ s, s ∈ ["1"; "True"; "true"] →
        _human_bool (VStr s) default = Return (VBool true)) ∧
  (∀ s, s ∈ ["0"; "False"; "false"] →
        _human_bool (VStr s) default = Return (VBool false)) ∧
  _human_bool (VStr "") default = Return default ∧
  (∀ s, s ∉ [""; "1"; "True"; "true"; "0"; "False"; "false"] →
        ∃ msg, _human_bool (VStr s) default = Raise (ValueError msg)) ∧
  (∀ v, (∀ s, v ≠ VStr s) → (∀ b, v ≠ VBool b) →
        _human_bool v default = Return (VBool (py_bool v))).
Proof.
  split; [done|]. split; [|split; [|split; [done|split]]].
  - intros s. rewrite !elem_of_cons, elem_of_nil.
    intros [-> | [-> | [-> | []]]]; reflexivity.
  - intros s. rewrite !elem_of_cons, elem_of_nil.
    intros [-> | [-> | [-> | []]]]; reflexivity.
  - intros s. apply human_bool_other.
  - intros v Hs Hb. destruct v; try reflexivity. by destruct (Hs s).
Qed.

Lemma human_bool_contract_witness :
  (∃ msg, _human_bool (VStr "yes") (VBool true) = Raise (ValueError msg)) ∧
  _human_bool (VStr "True") (VBool true) = Return (VBool true) ∧
  _human_bool (VStr "0") (VBool true) = Return (VBool false) ∧
  _human_bool (VInt 7) (VBool true) = Return (VBool true).
Proof.
  destruct (human_bool_contract (VBool true)) as (_ & Ht & Hf & _ & Ho & Hn).
  split; [|split; [|split]].
  - apply Ho. rewrite !not_elem_of_cons.
    repeat split; try discriminate. apply not_elem_of_nil.
  - apply Ht. rewrite !elem_of_cons. auto.
  - apply Hf. rewrite !elem_of_cons. auto.
  - apply (Hn (VInt 7)); discriminate.
Defined.

(** C7. The multi-path parser splits a string on the path-list delimiter
    into the ordered list of its pieces (joining them with the delimiter
    gives the string back, and no piece holds the delimiter), "/a:/b"
    giving ["/a", "/b"] where the delimiter is a colon; any other input,
    a list among them, passes through unchanged; so parsing twice is
    parsing once. *)
Theorem multiple_paths_parser_contract (pathsep : ascii) :
  (∀ s, multiple_paths_parser pathsep (VStr s) = VList (VStr <$> split pathsep s) ∧
        join pathsep (split pathsep s) = s ∧
        Forall (λ piece, occurs pathsep piece = false) (split pathsep s)) ∧
  multiple_paths_parser ":" (VStr "/a:/b") = VList [VStr "/a"; VStr "/b"] ∧
  (∀ l, multiple_paths_parser pathsep (VList l) = VList l) ∧
  (∀ v, (∀ s, v ≠ VStr s) → multiple_paths_parser pathsep v = v) ∧
  (∀ v, multiple_paths_parser pathsep (multiple_paths_parser pathsep v) =
        multiple_paths_parser pathsep v).
Proof.
  split; [|split; [|split; [|split]]].
  - intros s. split; [reflexivity|]. split; [apply join_split | apply split_pieces].
  - reflexivity.
  - reflexivity.
  - intros v Hv. destruct v; try reflexivity. by destruct (Hv s).
  - intros []; reflexivity.
Qed.

Lemma multiple_paths_parser_contract_witness :
  multiple_paths_parser ";" (VInt 3) = VInt 3.
Proof.
  destruct (multiple_paths_parser_contract ";") as (_ & _ & _ & Hother & _).
  apply Hother. discriminate.
Defined.

(** ** Reading a setting *)

Lemma contains_registered key m cs :
  m !! key = Some cs → contains key (Registry m) = Return true.
Proof. intros Hm. simpl. by rewrite bool_decide_eq_true_2. Qed.

Lemma contains_unregistered key m :
  m !! key = None → contains key (Registry m) = Return false.
Proof.
  intros Hm. simpl. rewrite bool_decide_eq_false_2; [done|].
  rewrite Hm. by intros [? ?].
Qed.

Lemma first_match_sources environ cs :
  first_match (sources environ cs) =
  match cs_value cs with
  | Some raw => Some raw
  | None =>
      match from_environ environ cs with
      | Some raw => Some raw
      | None =>
          match cs_yaml cs with
          | Some raw => Some raw
          | None => cs_default cs
          end
      end
  end.
Proof.
  unfold sources. simpl.
  destruct (cs_value cs), (from_environ environ cs), (cs_yaml cs),
    (cs_default cs); reflexivity.
Qed.

(** What [__getattr__] computes for a registered name. *)
Lemma getattr_registered environ self m key cs :
  config self = Registry m → key ≠ "config" → m !! key = Some cs →
  __getattr__ environ key self =
  match first_match (sources environ cs) with
  | Some raw => cs_type cs raw
  | None => Raise (not_set key)
  end.
Proof.
  intros Hc Hkey Hm. rewrite first_match_sources. unfold __getattr__.
  apply String.eqb_neq in Hkey. rewrite Hkey, Hc.
  rewrite (contains_registered _ _ _ Hm). simpl. rewrite Hm. simpl.
  unfold from_environ.
  destruct (cs_value cs); [done|].
  destruct (cs_env_var cs) as [name|]; simpl.
  - destruct (environ !! name); simpl; [done|].
    by destruct (cs_yaml cs), (cs_default cs).
  - by destruct (cs_yaml cs), (cs_default cs).
Qed.

(** C1, as the code has it.  For a setting registered under a name other
    than the reserved [config], [__getattr__] takes the first source
    that is present in the order explicit override, environment variable
    (if one was registered and is set), YAML overlay value, registered
    default, and returns the setting's coercion applied to it; the sources
    range over all their combinations of present and absent, and with none
    present the read raises the configuration error. *)
Theorem getattr_precedence (environ : gmap string string)
    (self : Configuration) (m : gmap string setting) (key : string)
    (cs : setting) :
  config self = Registry m → key ≠ "config" → m !! key = Some cs →
  ∀ explicit env yaml dflt : option pyval,
    cs_value cs = explicit → from_environ environ cs = env →
    cs_yaml cs = yaml → cs_default cs = dflt →
    __getattr__ environ key self =
      match first_match [explicit; env; yaml; dflt] with
      | Some raw => cs_type cs raw
      | None => Raise (not_set key)
      end ∧
    (∀ raw, explicit = Some raw →
       __getattr__ environ key self = cs_type cs raw) ∧
    (∀ raw, explicit = None → env = Some raw →
       __getattr__ environ key self = cs_type cs raw) ∧
    (∀ raw, explicit = None → env = None → yaml = Some raw →
       __getattr__ environ key self = cs_type cs raw) ∧
    (∀ raw, explicit = None → env = None → yaml = None → dflt = Some raw →
       __getattr__ environ key self = cs_type cs raw).
Proof.
  intros Hc Hkey Hm explicit env yaml dflt <- <- <- <-.
  rewrite (getattr_registered environ self m key cs Hc Hkey Hm).
  change [cs_value cs; from_environ environ cs; cs_yaml cs; cs_default cs]
    with (sources environ cs).
  rewrite first_match_sources.
  split; [done|]. split; [|split; [|split]].
  - by intros raw ->.
  - by intros raw -> ->.
  - by intros raw -> -> ->.
  - by intros raw -> -> -> ->.
Qed.

Lemma getattr_precedence_witness :
  __getattr__ {[ "FUEL_FLOATX" := "float16" ]} "floatX"
    (floatX_only (Some (VStr "float32"))) = Return (VStr "float16").
Proof.
  pose (cs := Setting Return (Some "FUEL_FLOATX") (Some (VStr "float64")) None
                (Some (VStr "float32"))).
  destruct (getattr_precedence {[ "FUEL_FLOATX" := "float16" ]}
              (floatX_only (Some (VStr "float32"))) {[ "floatX" := cs ]}
              "floatX" cs eq_refl ltac:(discriminate) eq_refl
              None (Some (VStr "float16")) (Some (VStr "float32"))
              (Some (VStr "float64")) eq_refl eq_refl eq_refl eq_refl)
    as (_ & _ & Henv & _).
  exact (Henv (VStr "float16") eq_refl eq_refl).
Defined.

(** C1 as stated fails for a setting registered under the name [config]:
    its default is present, yet the read raises the attribute error and
    not the coercion of the default. *)
Lemma getattr_config_registered :
  let cs := Setting Return None (Some (VInt 1)) None None in
  let run := add_config "config" Return (Some (VInt 1)) None __init__ in
  snd run = Return () ∧
  getitem "config" (config (fst run)) = Return cs ∧
  first_match (sources ∅ cs) = Some (VInt 1) ∧
  cs_type cs (VInt 1) = Return (VInt 1) ∧
  __getattr__ ∅ "config" (fst run) = Raise AttributeError.
Proof. by repeat split. Qed.

(** C9. Reading the reserved name [config], or a name that was never
    registered, raises the attribute error and so never the configuration
    error; when a read raises the configuration error the name is
    registered, and either none of its sources is present or its own
    coercion raised it. *)
Theorem getattr_attribute_error (environ : gmap string string)
    (self : Configuration) (m : gmap string setting) (key : string) :
  __getattr__ environ "config" self = Raise AttributeError ∧
  (config self = Registry m → m !! key = None →
     __getattr__ environ key self = Raise AttributeError) ∧
  (config self = Registry m → key = "config" ∨ m !! key = None →
     ∀ msg, __getattr__ environ key self ≠ Raise (ConfigurationError msg)) ∧
  (config self = Registry m →
     ∀ msg, __getattr__ environ key self = Raise (ConfigurationError msg) →
     key ≠ "config" ∧
     ∃ cs, m !! key = Some cs ∧
       ((first_match (sources environ cs) = None ∧
         ConfigurationError msg = not_set key) ∨
        (∃ raw, first_match (sources environ cs) = Some raw ∧
                cs_type cs raw = Raise (ConfigurationError msg)))).
Proof.
  assert (Hunreg : config self = Registry m → m !! key = None →
            __getattr__ environ key self = Raise AttributeError).
  { intros Hc Hm. unfold __getattr__.
    destruct (String.eqb key "config"); [done|].
    by rewrite Hc, (contains_unregistered _ _ Hm). }
  split; [done|]. split; [done|]. split.
  - intros Hc [-> | Hm] msg; [done|]. by rewrite Hunreg.
  - intros Hc msg Hraise.
    destruct (decide (key = "config")) as [-> | Hkey]; [done|].
    split; [done|].
    destruct (m !! key) as [cs|] eqn:Hm; [|by rewrite Hunreg in Hraise].
    exists cs. split; [done|].
    rewrite (getattr_registered environ self m key cs Hc Hkey Hm) in Hraise.
    destruct (first_match (sources environ cs)) as [raw|]; [right | left].
    + by exists raw.
    + split; [done|]. by inversion Hraise.
Qed.

Lemma getattr_attribute_error_witness :
  __getattr__ ∅ "data_path" (floatX_only None) = Raise AttributeError.
Proof.
  destruct (getattr_attribute_error ∅ (floatX_only None)
              {[ "floatX" := Setting Return (Some "FUEL_FLOATX")
                   (Some (VStr "float64")) None None ]} "data_path")
    as (_ & Hunreg & _).
  apply Hunreg; reflexivity.
Defined.

(** ** Registering and assigning *)

Lemma bind_run {A B} (m : stateful A) (f : A → stateful B) self :
  (m ≫= f) self =
  match m self with
  | (self', Raise e) => (self', Raise e)
  | (self', Return a) => f a self'
  end.
Proof. reflexivity. Qed.

Lemma setitem_registry key cs self m :
  config self = Registry m →
  setitem key cs self =
    ({| config := Registry (<[key := cs]> m); attrs := attrs self |}, Return ()).
Proof. intros Hc. unfold setitem. by rewrite Hc. Qed.

Lemma setslot_registered key f self m cs :
  config self = Registry m → m !! key = Some cs →
  setslot key f self =
    ({| config := Registry (<[key := f cs]> m); attrs := attrs self |}, Return ()).
Proof.
  intros Hc Hm. unfold setslot. rewrite Hc. simpl. rewrite Hm.
  by apply setitem_registry.
Qed.

Lemma add_config_registry key type_ default env_var self m :
  config self = Registry m →
  add_config key type_ default env_var self =
    ({| config := Registry (<[key := Setting type_ env_var default None None]> m);
        attrs := attrs self |}, Return ()).
Proof.
  intros Hc. unfold add_config.
  rewrite bind_run, (setitem_registry _ _ _ _ Hc), bind_run.
  destruct env_var as [name|], default as [value|]; simpl.
  - erewrite setslot_registered; [|done|apply lookup_insert_eq].
    erewrite setslot_registered; [|done|apply lookup_insert_eq].
    by rewrite !insert_insert_eq.
  - erewrite setslot_registered; [|done|apply lookup_insert_eq].
    by rewrite !insert_insert_eq.
  - erewrite setslot_registered; [|done|apply lookup_insert_eq].
    by rewrite !insert_insert_eq.
  - done.
Qed.

Lemma setattr_registered key value self m cs :
  config self = Registry m → key ≠ "config" → m !! key = Some cs →
  __setattr__ key value self =
    ({| config := Registry (<[key := with_value value cs]> m);
        attrs := attrs self |}, Return ()).
Proof.
  intros Hc Hkey Hm. unfold __setattr__.
  apply String.eqb_neq in Hkey. rewrite Hkey, bind_run. unfold read.
  rewrite Hc, (contains_registered _ _ _ Hm).
  by apply setslot_registered.
Qed.

Lemma setattr_other key value self m :
  config self = Registry m → key ≠ "config" → m !! key = None →
  key ∉ ["__class__"; "__dict__"; "__weakref__"] →
  __setattr__ key value self =
    ({| config := Registry m; attrs := <[key := value]> (attrs self) |},
     Return ()).
Proof.
  intros Hc Hkey Hm Hplain. unfold __setattr__.
  apply String.eqb_neq in Hkey. rewrite Hkey, bind_run. unfold read.
  rewrite Hc, (contains_unregistered _ _ Hm).
  rewrite !not_elem_of_cons in Hplain. destruct Hplain as (H1 & H2 & H3 & _).
  apply String.eqb_neq in H1, H2, H3.
  unfold object_setattr. by rewrite Hkey, H1, H2, H3, Hc.
Qed.

(** An assignment to a descriptor of the type raises and changes
    nothing. *)
Lemma setattr_descriptor key value self m :
  config self = Registry m → m !! key = None →
  (key ∈ ["__class__"; "__dict__"] →
     __setattr__ key value self = (self, Raise TypeError)) ∧
  (key = "__weakref__" →
     __setattr__ key value self = (self, Raise AttributeError)).
Proof.
  intros Hc Hm. split.
  - rewrite !elem_of_cons, elem_of_nil. intros [-> | [-> | []]];
      unfold __setattr__; simpl; rewrite bind_run; unfold read;
      by rewrite Hc, (contains_unregistered _ _ Hm).
  - intros ->. unfold __setattr__. simpl. rewrite bind_run. unfold read.
    by rewrite Hc, (contains_unregistered _ _ Hm).
Qed.

(** Whether it returns or raises, an assignment to an unregistered name
    other than [config] leaves the registry as it is. *)
Lemma setattr_other_config key value self m :
  config self = Registry m → key ≠ "config" → m !! key = None →
  config (fst (__setattr__ key value self)) = Registry m.
Proof.
  intros Hc Hkey Hm.
  destruct (decide (key ∈ ["__class__"; "__dict__"; "__weakref__"]))
    as [Hin | Hout].
  - destruct (setattr_descriptor key value self m Hc Hm) as [Htype Hattr].
    rewrite !elem_of_cons, elem_of_nil in Hin.
    destruct Hin as [-> | [-> | [-> | []]]].
    + rewrite Htype; [done|]. rewrite !elem_of_cons. auto.
    + rewrite Htype; [done|]. rewrite !elem_of_cons. auto.
    + by rewrite Hattr.
  - by rewrite (setattr_other key value self m Hc Hkey Hm Hout).
Qed.

(** [__getattr__] looks at the attribute [config] only. *)
Lemma getattr_config environ key self self' :
  config self = config self' →
  __getattr__ environ key self = __getattr__ environ key self'.
Proof. intros Hc. unfold __getattr__. by rewrite Hc. Qed.

(** C2, as the code has it.  A read of a setting registered under a name
    other than the reserved [config], with no explicit override, no
    environment variable that resolves, no YAML value and no default raises
    the configuration error that names the setting; registering a setting
    without a default returns, under any name, and it is the read after it
    that raises. *)
Theorem getattr_not_set (environ : gmap string string)
    (self : Configuration) (m : gmap string setting) (key : string) :
  config self = Registry m →
  (∀ cs, key ≠ "config" → m !! key = Some cs →
     cs_value cs = None → from_environ environ cs = None →
     cs_yaml cs = None → cs_default cs = None →
     __getattr__ environ key self =
       Raise (ConfigurationError
                ("Configuration not set and no default provided: "
                   ++ key ++ "."))) ∧
  (∀ type_ env_var, ∃ self',
     add_config key type_ None env_var self = (self', Return ()) ∧
     config self' =
       Registry (<[key := Setting type_ env_var None None None]> m) ∧
     (key ≠ "config" → env_var ≫= (environ !!.) = None →
      __getattr__ environ key self' =
        Raise (ConfigurationError
                 ("Configuration not set and no default provided: "
                    ++ key ++ ".")))).
Proof.
  intros Hc. split.
  - intros cs Hkey Hm Hv He Hy Hd.
    rewrite (getattr_registered environ self m key cs Hc Hkey Hm).
    by rewrite first_match_sources, Hv, He, Hy, Hd.
  - intros type_ env_var. eexists. split; [by apply add_config_registry|].
    split; [done|]. intros Hkey Henv.
    erewrite getattr_registered; [|done|done|apply lookup_insert_eq].
    rewrite first_match_sources. unfold from_environ. simpl.
    destruct env_var as [name|]; [|done]. simpl in Henv. by rewrite Henv.
Qed.

Lemma getattr_not_set_witness :
  ∃ self',
    add_config "data_path" Return None (Some "FUEL_DATA_PATH") __init__ =
      (self', Return ()) ∧
    __getattr__ ∅ "data_path" self' =
      Raise (ConfigurationError
               "Configuration not set and no default provided: data_path.").
Proof.
  destruct (getattr_not_set ∅ __init__ ∅ "data_path" eq_refl) as [_ Hadd].
  destruct (Hadd Return (Some "FUEL_DATA_PATH")) as (self' & Hrun & _ & Hget).
  exists self'. split; [exact Hrun|].
  apply Hget; [discriminate | reflexivity].
Defined.

(** C2 as stated fails for a setting registered under the name [config]
    without a default: with no source present the read raises the
    attribute error, not the configuration error. *)
Lemma getattr_config_not_set :
  let cs := Setting Return None None None None in
  let run := add_config "config" Return None None __init__ in
  snd run = Return () ∧
  getitem "config" (config (fst run)) = Return cs ∧
  first_match (sources ∅ cs) = None ∧
  __getattr__ ∅ "config" (fst run) = Raise AttributeError ∧
  ∀ msg, __getattr__ ∅ "config" (fst run) ≠ Raise (ConfigurationError msg).
Proof. by repeat split. Qed.

(** C3, as the code has it.  After [__setattr__] stored [v] for a setting
    registered under a name other than the reserved [config], a read of
    that setting gives the setting's coercion applied to [v], whatever the
    environment, the YAML value and the default of the setting are. *)
Theorem setattr_getattr (self : Configuration) (m : gmap string setting)
    (key : string) (cs : setting) (v : pyval) :
  config self = Registry m → key ≠ "config" → m !! key = Some cs →
  ∃ self', __setattr__ key v self = (self', Return ()) ∧
           ∀ environ, __getattr__ environ key self' = cs_type cs v.
Proof.
  intros Hc Hkey Hm. eexists. split; [by apply setattr_registered|].
  intros environ.
  erewrite getattr_registered; [|done|done|apply lookup_insert_eq].
  by rewrite first_match_sources.
Qed.

Lemma setattr_getattr_witness :
  ∃ self',
    __setattr__ "floatX" (VStr "float16") (floatX_only (Some (VStr "float32")))
      = (self', Return ()) ∧
    __getattr__ {[ "FUEL_FLOATX" := "float128" ]} "floatX" self'
      = Return (VStr "float16").
Proof.
  destruct (setattr_getattr (floatX_only (Some (VStr "float32")))
              {[ "floatX" := Setting Return (Some "FUEL_FLOATX")
                   (Some (VStr "float64")) None (Some (VStr "float32")) ]}
              "floatX" _ (VStr "float16") eq_refl ltac:(discriminate) eq_refl)
    as (self' & Hset & Hget).
  exists self'. split; [exact Hset | exact (Hget _)].
Defined.

(** C3 as stated fails for a setting registered under the name [config]:
    the assignment rebinds the attribute that holds the registry instead
    of storing the value, and the read raises the attribute error. *)
Lemma setattr_config_registered :
  let cs := Setting Return None (Some (VInt 1)) None None in
  let before := fst (add_config "config" Return (Some (VInt 1)) None __init__) in
  let run := __setattr__ "config" (VInt 2) before in
  getitem "config" (config before) = Return cs ∧
  snd run = Return () ∧
  config (fst run) = Clobbered (VInt 2) ∧
  cs_type cs (VInt 2) = Return (VInt 2) ∧
  __getattr__ ∅ "config" (fst run) = Raise AttributeError.
Proof. by repeat split. Qed.

(** ** Loading the overlay *)

Lemma yaml_overlay_cons key value rest m :
  yaml_overlay ((key, value) :: rest) m =
  yaml_overlay rest (alter (with_yaml value) key m).
Proof. reflexivity. Qed.

Lemma insert_as_alter (f : setting → setting) key cs (m : gmap string setting) :
  m !! key = Some cs → <[key := f cs]> m = alter f key m.
Proof.
  intros Hm. apply map_eq. intros k.
  destruct (decide (key = k)) as [<- | Hne].
  - by rewrite lookup_insert_eq, lookup_alter_eq, Hm.
  - by rewrite lookup_insert_ne, lookup_alter_ne.
Qed.

Lemma yaml_overlay_dom pre (m : gmap string setting) :
  dom (yaml_overlay pre m) = dom m.
Proof.
  revert m. induction pre as [|[key value] rest IH]; intros m; [done|].
  by rewrite yaml_overlay_cons, IH, dom_alter_L.
Qed.

Lemma yaml_overlay_None pre (m : gmap string setting) key :
  m !! key = None → yaml_overlay pre m !! key = None.
Proof.
  rewrite <- !not_elem_of_dom. by rewrite yaml_overlay_dom.
Qed.

(** A key the items do not name keeps its setting. *)
Lemma yaml_overlay_other pre (m : gmap string setting) key :
  key ∉ pre.*1 → yaml_overlay pre m !! key = m !! key.
Proof.
  revert m. induction pre as [|[k value] rest IH]; intros m Hkey; [done|].
  simpl in Hkey. apply not_elem_of_cons in Hkey as [Hne Hrest].
  rewrite yaml_overlay_cons, IH by done. by apply lookup_alter_ne.
Qed.

(** A key the items name once gets the value they give it. *)
Lemma yaml_overlay_named pre (m : gmap string setting) key value :
  NoDup pre.*1 → (key, value) ∈ pre →
  yaml_overlay pre m !! key = with_yaml value <$> m !! key.
Proof.
  revert m. induction pre as [|[k v] rest IH]; intros m Hnd Hin.
  - by apply elem_of_nil in Hin.
  - simpl in Hnd. apply NoDup_cons in Hnd as [Hk Hnd].
    rewrite yaml_overlay_cons. apply elem_of_cons in Hin as [Heq | Hin].
    + injection Heq as <- <-.
      rewrite yaml_overlay_other by done. apply lookup_alter_eq.
    + rewrite IH by done.
      assert (key ≠ k) as Hne.
      { intros ->. apply Hk. apply list_elem_of_fmap. by exists (k, value). }
      by rewrite lookup_alter_ne.
Qed.

(** Only the YAML slot of a setting is touched. *)
Lemma yaml_overlay_slots pre (m : gmap string setting) key cs :
  m !! key = Some cs →
  ∃ yaml, yaml_overlay pre m !! key =
    Some (Setting (cs_type cs) (cs_env_var cs) (cs_default cs) (cs_value cs) yaml).
Proof.
  revert m cs. induction pre as [|[k v] rest IH]; intros m cs Hm.
  - exists (cs_yaml cs). by destruct cs.
  - rewrite yaml_overlay_cons. destruct (decide (k = key)) as [-> | Hne].
    + destruct (IH (alter (with_yaml v) key m) (with_yaml v cs)) as [yaml Hy].
      { by rewrite lookup_alter_eq, Hm. }
      by exists yaml.
    + apply IH. by rewrite lookup_alter_ne.
Qed.

(** The loop over items whose keys are all registered. *)
Lemma load_items_app pre rest self m :
  config self = Registry m →
  Forall (λ item, is_Some (m !! item.1)) pre →
  load_items (pre ++ rest) self =
  load_items rest
    {| config := Registry (yaml_overlay pre m); attrs := attrs self |}.
Proof.
  revert self m. induction pre as [|[key value] pre IH]; intros self m Hc Hreg.
  - simpl. destruct self as [c a]. simpl in Hc. by subst c.
  - inversion_clear Hreg as [|? ? [cs Hcs] Hpre]. simpl in Hcs.
    change (((key, value) :: pre) ++ rest)%list with ((key, value) :: (pre ++ rest)%list).
    cbn [load_items]. rewrite bind_run. unfold read at 1.
    rewrite Hc, (contains_registered _ _ _ Hcs), bind_run.
    rewrite (setslot_registered _ _ _ _ _ Hc Hcs).
    rewrite (insert_as_alter _ _ _ _ Hcs).
    erewrite IH; [done|done|].
    eapply Forall_impl; [exact Hpre|]. intros item. simpl.
    destruct (decide (key = item.1)) as [<- | Hne].
    + by rewrite lookup_alter_eq, Hcs.
    + by rewrite lookup_alter_ne.
Qed.

Lemma load_items_registered items self m :
  config self = Registry m →
  Forall (λ item, is_Some (m !! item.1)) items →
  load_items items self =
  ({| config := Registry (yaml_overlay items m); attrs := attrs self |},
   Return ()).
Proof.
  intros Hc Hreg.
  rewrite <- (app_nil_r items) at 1.
  by rewrite (load_items_app items [] self m Hc Hreg).
Qed.

Lemma load_items_unrecognized pre key value post self m :
  config self = Registry m →
  Forall (λ item, is_Some (m !! item.1)) pre → m !! key = None →
  load_items (pre ++ (key, value) :: post) self =
  ({| config := Registry (yaml_overlay pre m); attrs := attrs self |},
   Raise (unrecognized key)).
Proof.
  intros Hc Hreg Hkey.
  rewrite (load_items_app pre _ self m Hc Hreg).
  cbn [load_items]. rewrite bind_run. unfold read. cbn [config].
  by rewrite (contains_unregistered _ _ (yaml_overlay_None pre m key Hkey)).
Qed.

(** The first item whose key is not registered. *)
Lemma first_unregistered (m : gmap string setting) (items : list (string * pyval)) :
  (∃ key, key ∈ items.*1 ∧ m !! key = None) →
  ∃ pre key value post,
    items = (pre ++ (key, value) :: post)%list ∧
    Forall (λ item, is_Some (m !! item.1)) pre ∧ m !! key = None.
Proof.
  induction items as [|[k v] items IH]; intros (key & Hin & Hkey).
  - by apply elem_of_nil in Hin.
  - destruct (m !! k) as [cs|] eqn:Hk.
    + destruct IH as (pre & key' & value & post & -> & Hpre & Hkey').
      { exists key. split; [|done]. simpl in Hin.
        apply elem_of_cons in Hin as [-> | Hin]; [congruence | done]. }
      exists ((k, v) :: pre), key', value, post.
      split; [done|]. split; [|done]. constructor; [|done]. simpl. by rewrite Hk.
    + by exists [], k, v, items.
Qed.

Lemma instance_eta self :
  {| config := config self; attrs := attrs self |} = self.
Proof. by destruct self. Qed.

(** Whatever the items, the loop stores a prefix of them and never
    touches the names of the registry or the other attributes. *)
Lemma load_items_prefix items self m :
  config self = Registry m →
  ∃ pre post, items = (pre ++ post)%list ∧
    fst (load_items items self) =
      {| config := Registry (yaml_overlay pre m); attrs := attrs self |}.
Proof.
  intros Hc.
  destruct (decide (Forall (λ item, is_Some (m !! item.1)) items)) as [Hreg | Hnot].
  - exists items, []. split; [by rewrite app_nil_r|].
    by rewrite (load_items_registered items self m Hc Hreg).
  - destruct (first_unregistered m items) as (pre & key & value & post & -> & Hpre & Hkey).
    { apply not_Forall_Exists in Hnot; [|apply _].
      apply Exists_exists in Hnot as ([k v] & Hin & Hk). simpl in Hk.
      exists k. split.
      - apply list_elem_of_fmap. by exists (k, v).
      - by apply eq_None_not_Some. }
    exists pre, ((key, value) :: post). split; [done|].
    by rewrite (load_items_unrecognized pre key value post self m Hc Hpre Hkey).
Qed.

(** C4, as the code has it.  When the mapping of the overlay file holds a
    key that was never registered, [load_yaml] raises the value error that
    names the first such key in the order of iteration; by then it has
    stored the YAML values of the items before that key, and of no other;
    the instance is as before only when that key comes first. *)
Theorem load_yaml_unrecognized (fuelrc : string) (environ : gmap string string)
    (files : gmap string (list (string * pyval))) (self : Configuration)
    (m : gmap string setting) (items : list (string * pyval)) :
  config self = Registry m →
  files !! yaml_file fuelrc environ = Some items →
  (∃ key, key ∈ items.*1 ∧ m !! key = None) →
  ∃ pre key value post,
    items = (pre ++ (key, value) :: post)%list ∧
    Forall (λ item, is_Some (m !! item.1)) pre ∧ m !! key = None ∧
    load_yaml fuelrc environ files self =
      ({| config := Registry (yaml_overlay pre m); attrs := attrs self |},
       Raise (ValueError ("Unrecognized config in YAML: " ++ key))) ∧
    (∀ k, k ∉ pre.*1 → yaml_overlay pre m !! k = m !! k) ∧
    (pre = [] → fst (load_yaml fuelrc environ files self) = self).
Proof.
  intros Hc Hfile Hbad.
  destruct (first_unregistered m items Hbad)
    as (pre & key & value & post & -> & Hpre & Hkey).
  exists pre, key, value, post.
  assert (Hrun : load_yaml fuelrc environ files self =
            ({| config := Registry (yaml_overlay pre m); attrs := attrs self |},
             Raise (unrecognized key))).
  { unfold load_yaml. rewrite Hfile. by apply load_items_unrecognized. }
  split; [done|]. split; [done|]. split; [done|]. split; [exact Hrun|].
  split; [intros k; apply yaml_overlay_other|].
  intros ->. rewrite Hrun. simpl. rewrite <- Hc. apply instance_eta.
Qed.

Lemma load_yaml_unrecognized_witness :
  snd (load_yaml "/home/user/.fuelrc" ∅
         {[ "/home/user/.fuelrc" := [("floatX", VStr "float32"); ("flaotX", VInt 16)] ]}
         (floatX_only None)) =
  Raise (ValueError "Unrecognized config in YAML: flaotX").
Proof.
  pose (files := ({[ "/home/user/.fuelrc" :=
          [("floatX", VStr "float32"); ("flaotX", VInt 16)] ]}
        : gmap string (list (string * pyval)))).
  assert (Hfile : files !! yaml_file "/home/user/.fuelrc" ∅ =
            Some [("floatX", VStr "float32"); ("flaotX", VInt 16)])
    by reflexivity.
  assert (Hbad : ∃ key,
            key ∈ [("floatX", VStr "float32"); ("flaotX", VInt 16)].*1 ∧
            ({[ "floatX" := Setting Return (Some "FUEL_FLOATX")
                  (Some (VStr "float64")) None None ]} : gmap string setting)
              !! key = None).
  { exists "flaotX". split; [|reflexivity]. simpl. rewrite !elem_of_cons. auto. }
  destruct (load_yaml_unrecognized "/home/user/.fuelrc" ∅ files
              (floatX_only None) _ _ eq_refl Hfile Hbad)
    as (pre & key & value & post & Hitems & Hpre & Hkey & Hrun & _).
  subst files. rewrite Hrun. simpl.
  destruct pre as [|[k v] pre].
  - injection Hitems as Hk _ _. subst key. discriminate Hkey.
  - injection Hitems as _ _ Hrest.
    destruct pre as [|item pre].
    + injection Hrest as <- _ _. reflexivity.
    + injection Hrest as _ Hrest. by destruct pre.
Defined.

(** C4 as stated fails: an overlay whose second key is unknown has stored
    the value of its first key when the load raises. *)
Lemma load_yaml_partial :
  let overlay := [("floatX", VStr "float32"); ("flaotX", VInt 16)] in
  let before := floatX_only None in
  let run := load_yaml "/home/user/.fuelrc" ∅
               {[ "/home/user/.fuelrc" := overlay ]} before in
  "flaotX" ∈ overlay.*1 ∧
  getitem "flaotX" (config before) = Raise (KeyError "flaotX") ∧
  snd run = Raise (ValueError "Unrecognized config in YAML: flaotX") ∧
  yaml_of "floatX" before = None ∧
  yaml_of "floatX" (fst run) = Some (VStr "float32") ∧
  __getattr__ ∅ "floatX" before = Return (VStr "float64") ∧
  __getattr__ ∅ "floatX" (fst run) = Return (VStr "float32").
Proof.
  simpl. split; [|by repeat split].
  rewrite !elem_of_cons. auto.
Qed.

(** C5, as the code has it.  [load_yaml] assigns: after a load that
    returns, each setting the file names has the file's raw value as its
    YAML value, whatever it held before, and the settings the file does
    not name keep theirs. *)
Theorem load_yaml_overwrites (fuelrc : string) (environ : gmap string string)
    (files : gmap string (list (string * pyval))) (self : Configuration)
    (m : gmap string setting) (items : list (string * pyval)) :
  config self = Registry m →
  files !! yaml_file fuelrc environ = Some items →
  NoDup items.*1 →
  Forall (λ item, is_Some (m !! item.1)) items →
  ∃ self',
    load_yaml fuelrc environ files self = (self', Return ()) ∧
    (∀ key value, (key, value) ∈ items → yaml_of key self' = Some value) ∧
    (∀ key, key ∉ items.*1 → yaml_of key self' = yaml_of key self).
Proof.
  intros Hc Hfile Hnd Hreg. eexists. split.
  { unfold load_yaml. rewrite Hfile. by apply load_items_registered. }
  unfold yaml_of. rewrite Hc. simpl. split.
  - intros key value Hin. rewrite (yaml_overlay_named _ _ _ _ Hnd Hin).
    rewrite Forall_forall in Hreg. destruct (Hreg _ Hin) as [cs Hcs].
    simpl in Hcs. by rewrite Hcs.
  - intros key Hkey. by rewrite yaml_overlay_other.
Qed.

Lemma load_yaml_overwrites_witness :
  ∃ self',
    load_yaml "/home/user/.fuelrc" {[ "FUEL_CONFIG" := "/etc/fuelrc" ]}
      {[ "/etc/fuelrc" := [("floatX", VStr "float16")] ]}
      (floatX_only (Some (VStr "float32"))) = (self', Return ()) ∧
    yaml_of "floatX" self' = Some (VStr "float16").
Proof.
  pose (files := ({[ "/etc/fuelrc" := [("floatX", VStr "float16")] ]}
        : gmap string (list (string * pyval)))).
  assert (Hfile : files !! yaml_file "/home/user/.fuelrc"
                             {[ "FUEL_CONFIG" := "/etc/fuelrc" ]} =
            Some [("floatX", VStr "float16")]) by reflexivity.
  destruct (load_yaml_overwrites "/home/user/.fuelrc"
              {[ "FUEL_CONFIG" := "/etc/fuelrc" ]} files
              (floatX_only (Some (VStr "float32"))) _ _ eq_refl Hfile)
    as (self' & Hrun & Hnamed & _).
  - simpl. apply NoDup_singleton.
  - constructor; [|constructor]. simpl. by eexists.
  - exists self'. split; [exact Hrun|]. apply Hnamed.
    apply elem_of_cons. by left.
Defined.

(** C5 as stated fails: a second load replaces the YAML value that a
    first load stored. *)
Lemma load_yaml_replaces :
  let before := floatX_only (Some (VStr "float32")) in
  let run := load_yaml "/home/user/.fuelrc" ∅
               {[ "/home/user/.fuelrc" := [("floatX", VStr "float16")] ]} before in
  yaml_of "floatX" before = Some (VStr "float32") ∧
  snd run = Return () ∧
  yaml_of "floatX" (fst run) = Some (VStr "float16") ∧
  yaml_of "floatX" (fst run) ≠ yaml_of "floatX" before.
Proof. by repeat split. Qed.

(** ** Assigning to a name that is not a setting *)

Lemma setattr_names self m key value :
  config self = Registry m → key ≠ "config" →
  ∃ m', config (fst (__setattr__ key value self)) = Registry m' ∧
        dom m' = dom m.
Proof.
  intros Hc Hkey. destruct (m !! key) as [cs|] eqn:Hm.
  - rewrite (setattr_registered key value self m cs Hc Hkey Hm). simpl.
    eexists. split; [done|]. apply dom_insert_lookup_L. by eexists.
  - rewrite (setattr_other_config key value self m Hc Hkey Hm). by eexists.
Qed.

Lemma load_items_names items self m :
  config self = Registry m →
  ∃ m', config (fst (load_items items self)) = Registry m' ∧ dom m' = dom m.
Proof.
  intros Hc. destruct (load_items_prefix items self m Hc) as (pre & post & _ & ->).
  simpl. eexists. split; [done|]. apply yaml_overlay_dom.
Qed.

(** C10, as the code has it.  Assigning to a name that was never
    registered and is neither [config] nor one of the descriptors
    [__class__], [__dict__] and [__weakref__] returns and binds the name in
    the instance; on [__class__] and [__dict__] it raises the type error
    and on [__weakref__] the attribute error.  In all these cases the
    registry stays as it is, so that every read of a setting gives what it
    gave before; an assignment to any name but [config] and a load of the
    overlay keep the set of registered names, and [add_config] adds its
    key to it. *)
Theorem setattr_unregistered (self : Configuration)
    (m : gmap string setting) (key : string) (v : pyval) :
  config self = Registry m → key ≠ "config" → m !! key = None →
  (key ∉ ["__class__"; "__dict__"; "__weakref__"] →
     __setattr__ key v self =
       ({| config := Registry m; attrs := <[key := v]> (attrs self) |},
        Return ())) ∧
  (key ∈ ["__class__"; "__dict__"] →
     __setattr__ key v self = (self, Raise TypeError)) ∧
  (key = "__weakref__" →
     __setattr__ key v self = (self, Raise AttributeError)) ∧
  config (fst (__setattr__ key v self)) = Registry m ∧
  (∀ environ k, __getattr__ environ k (fst (__setattr__ key v self)) =
                __getattr__ environ k self) ∧
  (∀ k w, k ≠ "config" →
     ∃ m', config (fst (__setattr__ k w self)) = Registry m' ∧
           dom m' = dom m) ∧
  (∀ items,
     ∃ m', config (fst (load_items items self)) = Registry m' ∧
           dom m' = dom m) ∧
  (∀ k type_ default env_var,
     ∃ m', add_config k type_ default env_var self =
             ({| config := Registry m'; attrs := attrs self |}, Return ()) ∧
           dom m' = {[k]} ∪ dom m).
Proof.
  intros Hc Hkey Hm.
  pose proof (setattr_other_config key v self m Hc Hkey Hm) as Hsame.
  destruct (setattr_descriptor key v self m Hc Hm) as [Htype Hattr].
  split; [by apply setattr_other|]. split; [exact Htype|].
  split; [exact Hattr|]. split; [exact Hsame|].
  split; [|split; [|split]].
  - intros environ k. apply getattr_config. by rewrite Hsame, Hc.
  - intros k w Hk. by apply setattr_names.
  - intros items. by apply load_items_names.
  - intros k type_ default env_var. eexists.
    split; [by apply add_config_registry|]. apply dom_insert_L.
Qed.

Lemma setattr_unregistered_witness :
  __setattr__ "data_path" (VStr "/data") (floatX_only None) =
    ({| config := config (floatX_only None);
        attrs := {[ "data_path" := VStr "/data" ]} |}, Return ()) ∧
  __setattr__ "__class__" (VStr "/data") (floatX_only None) =
    (floatX_only None, Raise TypeError) ∧
  __setattr__ "__weakref__" (VStr "/data") (floatX_only None) =
    (floatX_only None, Raise AttributeError).
Proof.
  pose (m := ({[ "floatX" := Setting Return (Some "FUEL_FLOATX")
                   (Some (VStr "float64")) None None ]}
              : gmap string setting)).
  split; [|split].
  - destruct (setattr_unregistered (floatX_only None) m
                "data_path" (VStr "/data") eq_refl ltac:(discriminate) eq_refl)
      as [Hset _].
    apply Hset. rewrite !not_elem_of_cons.
    repeat split; try discriminate. apply not_elem_of_nil.
  - destruct (setattr_unregistered (floatX_only None) m
                "__class__" (VStr "/data") eq_refl ltac:(discriminate) eq_refl)
      as (_ & Htype & _).
    apply Htype. rewrite !elem_of_cons. auto.
  - destruct (setattr_unregistered (floatX_only None) m
                "__weakref__" (VStr "/data") eq_refl ltac:(discriminate) eq_refl)
      as (_ & _ & Hattr & _).
    apply Hattr. reflexivity.
Defined.

(** C10 as stated fails at the name [config], which was never registered:
    the assignment rebinds the attribute that holds the registry, and the
    settings can no longer be read; and at the name [__class__], equally
    never registered, the assignment raises. *)
Lemma setattr_config_rebinds :
  let before := floatX_only None in
  let run := __setattr__ "config" VNone before in
  getitem "config" (config before) = Raise (KeyError "config") ∧
  snd run = Return () ∧
  config (fst run) = Clobbered VNone ∧
  config (fst run) ≠ config before ∧
  __getattr__ ∅ "floatX" before = Return (VStr "float64") ∧
  __getattr__ ∅ "floatX" (fst run) = Raise TypeError ∧
  getitem "__class__" (config before) = Raise (KeyError "__class__") ∧
  snd (__setattr__ "__class__" VNone before) = Raise TypeError.
Proof. by repeat split. Qed.

(** ** The default of [floatX] taken from theano *)

Lemma define_options_registry pathsep int str :
  define_options pathsep int str __init__ =
  ({| config := Registry (module_options pathsep int str); attrs := ∅ |},
   Return ()).
Proof.
  unfold define_options, module_options.
  repeat (rewrite bind_run; erewrite add_config_registry by reflexivity;
          cbn [attrs]).
  by erewrite add_config_registry by reflexivity.
Qed.

Lemma load_yaml_prefix fuelrc environ files self m :
  config self = Registry m →
  ∃ pre, fst (load_yaml fuelrc environ files self) =
    {| config := Registry (yaml_overlay pre m); attrs := attrs self |}.
Proof.
  intros Hc. unfold load_yaml.
  destruct (files !! yaml_file fuelrc environ) as [items|].
  - destruct (load_items_prefix items self m Hc) as (pre & _ & _ & Hrun).
    by exists pre.
  - exists []. simpl. rewrite <- Hc. symmetry. apply instance_eta.
Qed.

(** The setting [floatX] once the module has loaded the overlay. *)
Lemma loaded_floatX pathsep int str fuelrc environ files loaded result :
  (define_options pathsep int str ;; load_yaml fuelrc environ files) __init__
    = (loaded, result) →
  ∃ m yaml,
    loaded = {| config := Registry m; attrs := ∅ |} ∧
    m !! "floatX" =
      Some (Setting str (Some "FUEL_FLOATX") (Some (VStr "float64")) None yaml).
Proof.
  rewrite bind_run, define_options_registry. intros Hrun.
  destruct (load_yaml_prefix fuelrc environ files
              {| config := Registry (module_options pathsep int str); attrs := ∅ |}
              _ eq_refl) as [pre Hpre].
  rewrite Hrun in Hpre. simpl in Hpre. subst loaded.
  destruct (yaml_overlay_slots pre (module_options pathsep int str) "floatX"
              (Setting str (Some "FUEL_FLOATX") (Some (VStr "float64")) None None)
              eq_refl) as [yaml Hy].
  by exists (yaml_overlay pre (module_options pathsep int str)), yaml.
Qed.

Lemma bind_assoc_run {A B C} (m : stateful A) (n : stateful B)
    (k : stateful C) self :
  (m ;; n ;; k) self =
  match (m ;; n) self with
  | (self', Raise e) => (self', Raise e)
  | (self', Return _) => k self'
  end.
Proof.
  rewrite !bind_run. destruct (m self) as [self1 [e|a]]; [done|].
  rewrite bind_run. by destruct (n self1) as [self2 [e|b]].
Qed.

Lemma override_floatX_run environ x self m cs flag :
  config self = Registry m → m !! "floatX" = Some cs →
  __getattr__ environ "fuel_uses_theano" self = Return flag →
  py_bool flag = true →
  override_floatX environ (Some x) self =
  ({| config := Registry (<["floatX" := with_default x cs]> m);
      attrs := attrs self |}, Return ()).
Proof.
  intros Hc Hm Hflag Htrue. unfold override_floatX.
  rewrite bind_run. unfold read. rewrite Hflag, Htrue.
  unfold import_theano. rewrite bind_run. simpl.
  by apply setslot_registered.
Qed.

(** C8. When [fuel_uses_theano] reads true after the overlay was loaded,
    the module replaces the default of [floatX], and nothing else, by the
    value theano provides: with no variable [FUEL_FLOATX] and no YAML
    value, a read of [floatX] gives the coercion of theano's value where
    it gave that of "float64" before; an environment variable, a YAML
    value or a later explicit assignment is read ahead of it as before. *)
Theorem floatX_default_from_theano (pathsep : ascii)
    (int str : pyval → except pyval) (fuelrc : string)
    (environ : gmap string string)
    (files : gmap string (list (string * pyval)))
    (loaded : Configuration) (flag x : pyval) :
  (define_options pathsep int str ;; load_yaml fuelrc environ files) __init__
    = (loaded, Return ()) →
  __getattr__ environ "fuel_uses_theano" loaded = Return flag →
  py_bool flag = true →
  ∃ m yaml final,
    config loaded = Registry m ∧
    m !! "floatX" =
      Some (Setting str (Some "FUEL_FLOATX") (Some (VStr "float64")) None yaml) ∧
    module_init pathsep int str fuelrc environ files (Some x)
      = (final, Return ()) ∧
    config final =
      Registry (<[ "floatX" :=
                   Setting str (Some "FUEL_FLOATX") (Some x) None yaml ]> m) ∧
    (∀ env', env' !! "FUEL_FLOATX" = None → yaml = None →
       __getattr__ env' "floatX" final = str x ∧
       __getattr__ env' "floatX" loaded = str (VStr "float64")) ∧
    (∀ env' text, env' !! "FUEL_FLOATX" = Some text →
       __getattr__ env' "floatX" final = str (VStr text) ∧
       __getattr__ env' "floatX" loaded = str (VStr text)) ∧
    (∀ env' raw, env' !! "FUEL_FLOATX" = None → yaml = Some raw →
       __getattr__ env' "floatX" final = str raw ∧
       __getattr__ env' "floatX" loaded = str raw) ∧
    (∀ env' v, ∃ self',
       __setattr__ "floatX" v final = (self', Return ()) ∧
       __getattr__ env' "floatX" self' = str v).
Proof.
  intros Hrun Hflag Htrue.
  destruct (loaded_floatX _ _ _ _ _ _ _ _ Hrun) as (m & yaml & -> & Hm).
  exists m, yaml. eexists. split; [done|]. split; [done|].
  assert (Hfloat : "floatX" ≠ "config") by discriminate.
  split.
  { unfold module_init, module_body. rewrite bind_assoc_run, Hrun.
    by apply (override_floatX_run environ x
                {| config := Registry m; attrs := ∅ |} m _ flag eq_refl Hm). }
  cbn [config with_default cs_type cs_env_var cs_value cs_yaml].
  split; [done|].
  set (final := {| config := Registry _; attrs := _ |}).
  assert (Hfinal : ∀ env',
            __getattr__ env' "floatX" final =
            match first_match (sources env'
                    (Setting str (Some "FUEL_FLOATX") (Some x) None yaml)) with
            | Some raw => str raw
            | None => Raise (not_set "floatX")
            end).
  { intros env'. by erewrite getattr_registered;
      [|done|done|apply lookup_insert_eq]. }
  assert (Hloaded : ∀ env',
            __getattr__ env' "floatX" {| config := Registry m; attrs := ∅ |} =
            match first_match (sources env'
                    (Setting str (Some "FUEL_FLOATX") (Some (VStr "float64"))
                       None yaml)) with
            | Some raw => str raw
            | None => Raise (not_set "floatX")
            end).
  { intros env'. by erewrite getattr_registered; [|done|done|exact Hm]. }
  split; [|split; [|split]].
  - intros env' Henv ->. rewrite Hfinal, Hloaded, !first_match_sources.
    unfold from_environ. simpl. by rewrite Henv.
  - intros env' text Henv. rewrite Hfinal, Hloaded, !first_match_sources.
    unfold from_environ. simpl. by rewrite Henv.
  - intros env' raw Henv ->. rewrite Hfinal, Hloaded, !first_match_sources.
    unfold from_environ. simpl. by rewrite Henv.
  - intros env' v. eexists. split.
    + by apply (setattr_registered "floatX" v final _ _ eq_refl Hfloat
                  (lookup_insert_eq m "floatX" _)).
    + erewrite getattr_registered; [|done|done|apply lookup_insert_eq].
      by rewrite first_match_sources.
Qed.

(** A run where [str] is applied to strings only, on which it is the
    identity. *)
Lemma floatX_default_from_theano_witness :
  __getattr__ ∅ "floatX"
    (fst (module_init ":" Return Return "/home/user/.fuelrc"
            {[ "FUEL_USES_THEANO" := "1" ]} ∅ (Some (VStr "float32"))))
  = Return (VStr "float32").
Proof.
  pose (environ := ({[ "FUEL_USES_THEANO" := "1" ]} : gmap string string)).
  pose (loaded := {| config := Registry (module_options ":" Return Return);
                     attrs := ∅ |}).
  assert (Hrun : (define_options ":" Return Return ;;
                  load_yaml "/home/user/.fuelrc" environ ∅) __init__
                 = (loaded, Return ())).
  { by rewrite bind_run, define_options_registry. }
  assert (Hflag : __getattr__ environ "fuel_uses_theano" loaded
                  = Return (VBool true)) by reflexivity.
  destruct (floatX_default_from_theano ":" Return Return "/home/user/.fuelrc"
              environ ∅ loaded (VBool true) (VStr "float32")
              Hrun Hflag eq_refl)
    as (m & yaml & final & Hc & Hm & Hinit & _ & Habsent & _).
  subst environ. rewrite Hinit. simpl.
  injection Hc as <-.
  assert (Hyaml : yaml = None).
  { assert (Hm' : module_options ":" Return Return !! "floatX" =
              Some (Setting Return (Some "FUEL_FLOATX")
                      (Some (VStr "float64")) None None)) by reflexivity.
    rewrite Hm' in Hm. by injection Hm as <-. }
  apply (Habsent ∅); [reflexivity | exact Hyaml].
Defined.

(** * Further properties of the module *)

(** ** The list parsers *)

Lemma split_length sep s : length (split sep s) = S (count_char sep s).
Proof.
  induction s as [|c rest IH]; simpl; [done|].
  destruct (Ascii.eqb c sep); simpl.
  - by rewrite IH.
  - pose proof (split_nonempty sep rest) as Hne.
    destruct (split sep rest) as [|piece pieces]; [done|].
    simpl in *. by rewrite IH.
Qed.

Lemma split_whole sep s : occurs sep s = false → split sep s = [s].
Proof.
  induction s as [|c rest IH]; simpl; [done|].
  destruct (Ascii.eqb c sep); simpl; [done|].
  intros Hrest. by rewrite (IH Hrest).
Qed.

(** X1. [extra_downloader_converter] splits a string on single spaces
    into the list of its pieces (joining them with a space gives the string
    back and no piece holds a space), returns any other value as it is, and
    converting twice is converting once. *)
Theorem extra_downloader_converter_contract :
  (∀ s, extra_downloader_converter (VStr s) = VList (VStr <$> split " " s) ∧
        join " " (split " " s) = s ∧
        Forall (λ piece, occurs " " piece = false) (split " " s)) ∧
  (∀ v, (∀ s, v ≠ VStr s) → extra_downloader_converter v = v) ∧
  (∀ v, extra_downloader_converter (extra_downloader_converter v) =
        extra_downloader_converter v).
Proof.
  split; [|split].
  - intros s. split; [done|]. split; [apply join_split | apply split_pieces].
  - intros v Hv. destruct v; try done. by destruct (Hv s).
  - by intros [].
Qed.

Lemma extra_downloader_converter_contract_witness :
  extra_downloader_converter (VList [VStr "a b"]) = VList [VStr "a b"].
Proof.
  destruct extra_downloader_converter_contract as (_ & Hother & _).
  apply Hother. discriminate.
Defined.

(** X2. On a string both parsers return a list with one more element than
    the string has delimiters, so never the empty list: a string without
    the delimiter gives the list of that one string, and the empty string
    gives the list that holds the empty string. *)
Theorem parsers_piece_count (pathsep : ascii) (s : string) :
  (∃ pieces, multiple_paths_parser pathsep (VStr s) = VList (VStr <$> pieces) ∧
             length pieces = S (count_char pathsep s)) ∧
  (∃ pieces, extra_downloader_converter (VStr s) = VList (VStr <$> pieces) ∧
             length pieces = S (count_char " " s)) ∧
  (occurs pathsep s = false →
     multiple_paths_parser pathsep (VStr s) = VList [VStr s]) ∧
  (occurs " " s = false →
     extra_downloader_converter (VStr s) = VList [VStr s]) ∧
  multiple_paths_parser pathsep (VStr "") = VList [VStr ""] ∧
  extra_downloader_converter (VStr "") = VList [VStr ""].
Proof.
  split; [|split; [|split; [|split]]].
  - exists (split pathsep s). split; [done | apply split_length].
  - exists (split " " s). split; [done | apply split_length].
  - intros Hs. simpl. by rewrite (split_whole _ _ Hs).
  - intros Hs. simpl. by rewrite (split_whole _ _ Hs).
  - done.
Qed.

Lemma parsers_piece_count_witness :
  multiple_paths_parser ":" (VStr "/data") = VList [VStr "/data"] ∧
  extra_downloader_converter (VStr "pkg") = VList [VStr "pkg"].
Proof.
  split.
  - destruct (parsers_piece_count ":" "/data") as (_ & _ & Hwhole & _).
    apply Hwhole. reflexivity.
  - destruct (parsers_piece_count ":" "pkg") as (_ & _ & _ & Hwhole & _).
    apply Hwhole. reflexivity.
Defined.

(** X3. With a boolean default, as the module passes it, [_human_bool]
    returns a boolean or raises the value error, whatever the input; it
    raises only on a string that is neither empty nor one of the six
    literals. *)
Theorem human_bool_boolean (value : pyval) (b : bool) :
  (∃ b', _human_bool value (VBool b) = Return (VBool b')) ∨
  (∃ s msg, value = VStr s ∧
            (s ∉ [""; "1"; "True"; "true"; "0"; "False"; "false"]) ∧
            _human_bool value (VBool b) = Raise (ValueError msg)).
Proof.
  destruct value as [| b0 | n | s | l]; try (left; eexists; reflexivity).
  destruct (decide (s ∈ [""; "1"; "True"; "true"; "0"; "False"; "false"]))
    as [Hin | Hout].
  - left. rewrite !elem_of_cons, elem_of_nil in Hin.
    destruct Hin as [-> | [-> | [-> | [-> | [-> | [-> | [-> | []]]]]]]];
      eexists; reflexivity.
  - right. destruct (human_bool_other s (VBool b) Hout) as [msg Hmsg].
    by exists s, msg.
Qed.

(** ** Registering and assigning, composed *)

(** A read depends on the registry through the entry of its key only. *)
Lemma getattr_lookup environ k self self' m m' :
  config self = Registry m → config self' = Registry m' →
  m' !! k = m !! k →
  __getattr__ environ k self' = __getattr__ environ k self.
Proof.
  intros Hc Hc' Hk. unfold __getattr__, contains, getitem.
  by rewrite Hc, Hc', Hk.
Qed.

(** X4. A setting registered with a default reads as the coercion of the
    default as long as its environment variable, if it has one, is not
    set, and as the coercion of the variable's text once it is. *)
Theorem add_config_default_read (self : Configuration)
    (m : gmap string setting) (key : string) (type_ : pyval → except pyval)
    (default : pyval) (env_var : option string) :
  config self = Registry m → key ≠ "config" →
  ∃ self',
    add_config key type_ (Some default) env_var self = (self', Return ()) ∧
    (∀ environ, env_var ≫= (environ !!.) = None →
       __getattr__ environ key self' = type_ default) ∧
    (∀ environ name text, env_var = Some name → environ !! name = Some text →
       __getattr__ environ key self' = type_ (VStr text)).
Proof.
  intros Hc Hkey. eexists. split; [by apply add_config_registry|]. split.
  - intros environ Henv.
    erewrite getattr_registered; [|done|done|apply lookup_insert_eq].
    rewrite first_match_sources. unfold from_environ. simpl.
    destruct env_var as [name|]; [|done]. simpl in Henv. by rewrite Henv.
  - intros environ name text -> Htext.
    erewrite getattr_registered; [|done|done|apply lookup_insert_eq].
    rewrite first_match_sources. unfold from_environ. simpl. by rewrite Htext.
Qed.

Lemma add_config_default_read_witness :
  ∃ self',
    add_config "default_seed" Return (Some (VInt 1)) (Some "FUEL_SEED") __init__
      = (self', Return ()) ∧
    __getattr__ ∅ "default_seed" self' = Return (VInt 1) ∧
    __getattr__ {[ "FUEL_SEED" := "7" ]} "default_seed" self'
      = Return (VStr "7").
Proof.
  destruct (add_config_default_read __init__ ∅ "default_seed" Return (VInt 1)
              (Some "FUEL_SEED") eq_refl ltac:(discriminate))
    as (self' & Hadd & Hdefault & Henv).
  exists self'. split; [exact Hadd|]. split.
  - apply Hdefault. reflexivity.
  - apply (Henv _ "FUEL_SEED" "7"); reflexivity.
Defined.

(** X5. Registering again a name other than [config] replaces its
    setting as a whole: an explicit value assigned before and a YAML value
    loaded before are gone, and the read goes by the new environment
    variable and the new default alone. *)
Theorem add_config_again_resets (self : Configuration)
    (m : gmap string setting) (key : string) (cs : setting)
    (type_ : pyval → except pyval) (default : option pyval)
    (env_var : option string) (v : pyval) :
  config self = Registry m → key ≠ "config" → m !! key = Some cs →
  ∃ self',
    (__setattr__ key v ;; add_config key type_ default env_var) self
      = (self', Return ()) ∧
    config self' =
      Registry (<[key := Setting type_ env_var default None None]> m) ∧
    (∀ environ, env_var ≫= (environ !!.) = None →
       __getattr__ environ key self' =
         match default with
         | Some raw => type_ raw
         | None => Raise (not_set key)
         end).
Proof.
  intros Hc Hkey Hm. eexists. split.
  { rewrite bind_run, (setattr_registered key v self m cs Hc Hkey Hm).
    by apply add_config_registry. }
  cbn [config attrs]. rewrite insert_insert_eq. split; [done|].
  intros environ Henv.
  erewrite getattr_registered; [|done|done|apply lookup_insert_eq].
  rewrite first_match_sources. unfold from_environ. simpl.
  destruct env_var as [name|]; simpl in *; [by rewrite Henv | done].
Qed.

Lemma add_config_again_resets_witness :
  ∃ self',
    (__setattr__ "floatX" (VStr "float16") ;;
     add_config "floatX" Return (Some (VStr "float64")) None)
      (floatX_only (Some (VStr "float32"))) = (self', Return ()) ∧
    __getattr__ ∅ "floatX" self' = Return (VStr "float64").
Proof.
  destruct (add_config_again_resets (floatX_only (Some (VStr "float32")))
              {[ "floatX" := Setting Return (Some "FUEL_FLOATX")
                   (Some (VStr "float64")) None (Some (VStr "float32")) ]}
              "floatX" _ Return (Some (VStr "float64")) None (VStr "float16")
              eq_refl ltac:(discriminate) eq_refl)
    as (self' & Hrun & _ & Hget).
  exists self'. split; [exact Hrun|]. apply (Hget ∅). reflexivity.
Defined.

(** X6. Registering a name leaves every other setting and the plain
    attributes of the instance as they are: a read of another name gives
    what it gave before. *)
Theorem add_config_frame (self : Configuration) (m : gmap string setting)
    (key : string) (type_ : pyval → except pyval) (default : option pyval)
    (env_var : option string) :
  config self = Registry m →
  ∃ self',
    add_config key type_ default env_var self = (self', Return ()) ∧
    attrs self' = attrs self ∧
    (∀ environ k, k ≠ key →
       __getattr__ environ k self' = __getattr__ environ k self).
Proof.
  intros Hc. eexists. split; [by apply add_config_registry|].
  split; [done|]. intros environ k Hk.
  eapply getattr_lookup; [exact Hc | done |]. by apply lookup_insert_ne.
Qed.

Lemma add_config_frame_witness :
  ∃ self',
    add_config "default_seed" Return (Some (VInt 1)) None (floatX_only None)
      = (self', Return ()) ∧
    __getattr__ ∅ "floatX" self' = Return (VStr "float64").
Proof.
  destruct (add_config_frame (floatX_only None)
              {[ "floatX" := Setting Return (Some "FUEL_FLOATX")
                   (Some (VStr "float64")) None None ]}
              "default_seed" Return (Some (VInt 1)) None eq_refl)
    as (self' & Hadd & _ & Hframe).
  exists self'. split; [exact Hadd|].
  rewrite (Hframe ∅ "floatX"); [reflexivity | discriminate].
Defined.

(** X7. Of two assignments to a setting registered under a name other
    than [config] the later one is read, and assigning to such a setting
    changes the read of no other name and none of the plain attributes of
    the instance. *)
Theorem setattr_last_wins (self : Configuration) (m : gmap string setting)
    (key : string) (cs : setting) (v1 v2 : pyval) :
  config self = Registry m → key ≠ "config" → m !! key = Some cs →
  ∃ self',
    (__setattr__ key v1 ;; __setattr__ key v2) self = (self', Return ()) ∧
    attrs self' = attrs self ∧
    (∀ environ, __getattr__ environ key self' = cs_type cs v2) ∧
    (∀ environ k, k ≠ key →
       __getattr__ environ k self' = __getattr__ environ k self).
Proof.
  intros Hc Hkey Hm. eexists. split.
  { rewrite bind_run, (setattr_registered key v1 self m cs Hc Hkey Hm).
    eapply setattr_registered; [reflexivity | done | apply lookup_insert_eq]. }
  cbn [config attrs]. rewrite insert_insert_eq. split; [done|]. split.
  - intros environ.
    erewrite getattr_registered; [|done|done|apply lookup_insert_eq].
    by rewrite first_match_sources.
  - intros environ k Hk.
    eapply getattr_lookup; [exact Hc | done |]. by apply lookup_insert_ne.
Qed.

Lemma setattr_last_wins_witness :
  ∃ self',
    (__setattr__ "floatX" (VStr "float16") ;;
     __setattr__ "floatX" (VStr "float32")) (floatX_only None)
      = (self', Return ()) ∧
    __getattr__ ∅ "floatX" self' = Return (VStr "float32").
Proof.
  destruct (setattr_last_wins (floatX_only None)
              {[ "floatX" := Setting Return (Some "FUEL_FLOATX")
                   (Some (VStr "float64")) None None ]}
              "floatX" _ (VStr "float16") (VStr "float32")
              eq_refl ltac:(discriminate) eq_refl)
    as (self' & Hrun & _ & Hget & _).
  exists self'. split; [exact Hrun | exact (Hget ∅)].
Defined.

(** X8. An assignment to [config] always returns and rebinds the
    attribute; once it holds [None], a boolean, an integer, a string or a
    list, no read returns a value (each raises the attribute error or the
    type error) and [add_config] raises the type error and changes
    nothing. *)
Theorem setattr_config_then_nothing_reads (self : Configuration) (v : pyval) :
  ∃ self',
    __setattr__ "config" v self = (self', Return ()) ∧
    config self' = Clobbered v ∧ attrs self' = attrs self ∧
    (∀ environ key,
       __getattr__ environ key self' = Raise AttributeError ∨
       __getattr__ environ key self' = Raise TypeError) ∧
    (∀ key type_ default env_var,
       add_config key type_ default env_var self' = (self', Raise TypeError)).
Proof.
  eexists. split; [reflexivity|]. split; [done|]. split; [done|]. split.
  - intros environ key. unfold __getattr__. cbn [config].
    destruct (String.eqb key "config"); [by left|].
    destruct v as [| b | n | s | l]; try (by right); simpl.
    + destruct (bool_decide _); simpl; [by right | by left].
    + destruct (existsb _ l); simpl; [by right | by left].
  - intros key type_ default env_var. unfold add_config.
    rewrite bind_run. unfold setitem. cbn [config]. done.
Qed.

(** ** Loading the overlay, composed with reads *)

(** X9. A path that is no file makes [load_yaml] do nothing and return;
    when [FUEL_CONFIG] is set it alone is looked at, so that a file at
    [~/.fuelrc] is not read even if the path of [FUEL_CONFIG] is no file;
    an empty mapping changes nothing either. *)
Theorem load_yaml_no_file (fuelrc : string) (environ : gmap string string)
    (files : gmap string (list (string * pyval))) (self : Configuration) :
  (∀ path, environ !! "FUEL_CONFIG" = Some path → files !! path = None →
     load_yaml fuelrc environ files self = (self, Return ())) ∧
  (environ !! "FUEL_CONFIG" = None → files !! fuelrc = None →
     load_yaml fuelrc environ files self = (self, Return ())) ∧
  (∀ path other, environ !! "FUEL_CONFIG" = Some path →
     load_yaml fuelrc environ files self = load_yaml other environ files self) ∧
  (files !! yaml_file fuelrc environ = Some [] →
     load_yaml fuelrc environ files self = (self, Return ())).
Proof.
  unfold load_yaml, yaml_file. split; [|split; [|split]].
  - intros path -> Hfile. by rewrite Hfile.
  - intros -> Hfile. by rewrite Hfile.
  - by intros path other ->.
  - by intros ->.
Qed.

Lemma load_yaml_no_file_witness :
  load_yaml "/home/user/.fuelrc" {[ "FUEL_CONFIG" := "/nowhere" ]}
    {[ "/home/user/.fuelrc" := [("floatX", VStr "float16")] ]}
    (floatX_only None) = (floatX_only None, Return ()).
Proof.
  pose (files := ({[ "/home/user/.fuelrc" := [("floatX", VStr "float16")] ]}
        : gmap string (list (string * pyval)))).
  destruct (load_yaml_no_file "/home/user/.fuelrc"
              {[ "FUEL_CONFIG" := "/nowhere" ]} files (floatX_only None))
    as [Hcustom _].
  apply (Hcustom "/nowhere"); reflexivity.
Defined.

(** X10. Whether [load_yaml] returns or raises, a setting that has an
    explicit value, or whose environment variable is set at the time of
    the read, reads as it did before the load: the overlay never gets
    ahead of these two sources. *)
Theorem load_yaml_keeps_precedence (fuelrc : string)
    (environ : gmap string string)
    (files : gmap string (list (string * pyval))) (self : Configuration)
    (m : gmap string setting) (key : string) (cs : setting)
    (environ' : gmap string string) :
  config self = Registry m → key ≠ "config" → m !! key = Some cs →
  is_Some (cs_value cs) ∨ is_Some (from_environ environ' cs) →
  __getattr__ environ' key (fst (load_yaml fuelrc environ files self)) =
  __getattr__ environ' key self.
Proof.
  intros Hc Hkey Hm Hsource.
  destruct (load_yaml_prefix fuelrc environ files self m Hc) as [pre ->].
  destruct (yaml_overlay_slots pre m key cs Hm) as [yaml Hy].
  erewrite (getattr_registered environ' _ _ key); [|reflexivity|done|exact Hy].
  rewrite (getattr_registered environ' self m key cs Hc Hkey Hm).
  rewrite !first_match_sources. unfold from_environ in *. simpl.
  destruct (cs_value cs) as [raw|]; [done|].
  destruct Hsource as [[? [=]] | [raw Hraw]]. by rewrite Hraw.
Qed.

Lemma load_yaml_keeps_precedence_witness :
  __getattr__ {[ "FUEL_FLOATX" := "float128" ]} "floatX"
    (fst (load_yaml "/home/user/.fuelrc" ∅
            {[ "/home/user/.fuelrc" := [("floatX", VStr "float16")] ]}
            (floatX_only None)))
  = Return (VStr "float128").
Proof.
  pose (files := ({[ "/home/user/.fuelrc" := [("floatX", VStr "float16")] ]}
        : gmap string (list (string * pyval)))).
  assert (Hsource :
            is_Some (cs_value (Setting Return (Some "FUEL_FLOATX")
                                 (Some (VStr "float64")) None None)) ∨
            is_Some (from_environ {[ "FUEL_FLOATX" := "float128" ]}
                       (Setting Return (Some "FUEL_FLOATX")
                          (Some (VStr "float64")) None None))).
  { right. by eexists. }
  pose proof (load_yaml_keeps_precedence "/home/user/.fuelrc" ∅ files
                (floatX_only None)
                {[ "floatX" := Setting Return (Some "FUEL_FLOATX")
                     (Some (VStr "float64")) None None ]}
                "floatX" _ {[ "FUEL_FLOATX" := "float128" ]}
                eq_refl ltac:(discriminate) eq_refl Hsource) as Hkeep.
  subst files. rewrite Hkeep. reflexivity.
Defined.

(** X11. Loading the same file a second time changes nothing: when all
    keys of the mapping are registered, two loads in a row leave the
    instance as one load does. *)
Theorem load_yaml_twice (fuelrc : string) (environ : gmap string string)
    (files : gmap string (list (string * pyval))) (self : Configuration)
    (m : gmap string setting) (items : list (string * pyval)) :
  config self = Registry m →
  files !! yaml_file fuelrc environ = Some items →
  NoDup items.*1 →
  Forall (λ item, is_Some (m !! item.1)) items →
  (load_yaml fuelrc environ files ;; load_yaml fuelrc environ files) self =
  load_yaml fuelrc environ files self.
Proof.
  intros Hc Hfile Hnd Hreg. rewrite bind_run. unfold load_yaml. rewrite Hfile.
  rewrite (load_items_registered items self m Hc Hreg).
  erewrite load_items_registered; [|reflexivity|].
  - cbn [attrs]. do 3 f_equal. apply map_eq. intros k.
    destruct (decide (k ∈ items.*1)) as [Hin | Hout].
    + apply list_elem_of_fmap in Hin as ([k' value] & -> & Hin). simpl.
      rewrite !(yaml_overlay_named _ _ _ _ Hnd Hin).
      by destruct (m !! k').
    + by rewrite !yaml_overlay_other.
  - eapply Forall_impl; [exact Hreg|]. intros item.
    by rewrite <- !elem_of_dom, yaml_overlay_dom.
Qed.

Lemma load_yaml_twice_witness :
  let load := load_yaml "/home/user/.fuelrc" ∅
                {[ "/home/user/.fuelrc" := [("floatX", VStr "float16")] ]} in
  (load ;; load) (floatX_only None) = load (floatX_only None).
Proof.
  pose (files := ({[ "/home/user/.fuelrc" := [("floatX", VStr "float16")] ]}
        : gmap string (list (string * pyval)))).
  assert (Hfile : files !! yaml_file "/home/user/.fuelrc" ∅ =
            Some [("floatX", VStr "float16")]) by reflexivity.
  apply (load_yaml_twice "/home/user/.fuelrc" ∅ files (floatX_only None)
           {[ "floatX" := Setting Return (Some "FUEL_FLOATX")
                (Some (VStr "float64")) None None ]}
           [("floatX", VStr "float16")] eq_refl Hfile).
  - simpl. apply NoDup_singleton.
  - constructor; [|constructor]. simpl. by eexists.
Defined.

(** X12. After a load that returns, a setting the file names, registered
    under a name other than [config], with no explicit value and no
    environment variable set at the time of the read, reads as the
    coercion of the file's raw value, ahead of its default. *)
Theorem load_yaml_then_read (fuelrc : string) (environ : gmap string string)
    (files : gmap string (list (string * pyval))) (self : Configuration)
    (m : gmap string setting) (items : list (string * pyval))
    (key : string) (value : pyval) (cs : setting)
    (environ' : gmap string string) :
  config self = Registry m →
  files !! yaml_file fuelrc environ = Some items →
  NoDup items.*1 →
  Forall (λ item, is_Some (m !! item.1)) items →
  (key, value) ∈ items → key ≠ "config" → m !! key = Some cs →
  cs_value cs = None → from_environ environ' cs = None →
  ∃ self',
    load_yaml fuelrc environ files self = (self', Return ()) ∧
    __getattr__ environ' key self' = cs_type cs value.
Proof.
  intros Hc Hfile Hnd Hreg Hin Hkey Hm Hvalue Henv. eexists. split.
  { unfold load_yaml. rewrite Hfile. by apply load_items_registered. }
  erewrite getattr_registered; [|reflexivity|done|].
  2:{ rewrite (yaml_overlay_named _ _ _ _ Hnd Hin), Hm. reflexivity. }
  rewrite first_match_sources. unfold from_environ in *. simpl.
  by rewrite Hvalue, Henv.
Qed.

Lemma load_yaml_then_read_witness :
  ∃ self',
    load_yaml "/home/user/.fuelrc" ∅
      {[ "/home/user/.fuelrc" := [("floatX", VStr "float16")] ]}
      (floatX_only None) = (self', Return ()) ∧
    __getattr__ ∅ "floatX" self' = Return (VStr "float16").
Proof.
  pose (files := ({[ "/home/user/.fuelrc" := [("floatX", VStr "float16")] ]}
        : gmap string (list (string * pyval)))).
  pose (cs := Setting Return (Some "FUEL_FLOATX") (Some (VStr "float64"))
                None None).
  assert (Hfile : files !! yaml_file "/home/user/.fuelrc" ∅ =
            Some [("floatX", VStr "float16")]) by reflexivity.
  destruct (load_yaml_then_read "/home/user/.fuelrc" ∅ files (floatX_only None)
              {[ "floatX" := cs ]} [("floatX", VStr "float16")]
              "floatX" (VStr "float16") cs ∅ eq_refl Hfile)
    as (self' & Hrun & Hget).
  - simpl. apply NoDup_singleton.
  - constructor; [|constructor]. simpl. by eexists.
  - apply elem_of_cons. by left.
  - discriminate.
  - reflexivity.
  - reflexivity.
  - reflexivity.
  - exists self'. split; [exact Hrun | exact Hget].
Defined.

(** ** The initialisation of the module *)

Lemma load_items_outcome items self m :
  config self = Registry m →
  snd (load_items items self) = Return () ∨
  ∃ key, snd (load_items items self) = Raise (unrecognized key).
Proof.
  intros Hc.
  destruct (decide (Forall (λ item, is_Some (m !! item.1)) items)) as [Hreg | Hnot].
  - left. by rewrite (load_items_registered items self m Hc Hreg).
  - right.
    destruct (first_unregistered m items) as (pre & key & value & post & -> & Hpre & Hkey).
    { apply not_Forall_Exists in Hnot; [|apply _].
      apply Exists_exists in Hnot as ([k v] & Hin & Hk). simpl in Hk.
      exists k. split.
      - apply list_elem_of_fmap. by exists (k, v).
      - by apply eq_None_not_Some. }
    exists key.
    by rewrite (load_items_unrecognized pre key value post self m Hc Hpre Hkey).
Qed.

(** The instance once the module has registered its options and loaded
    the overlay, with the outcome of the load. *)
Lemma loaded_overlay pathsep int str fuelrc environ files :
  ∃ pre result,
    (define_options pathsep int str ;; load_yaml fuelrc environ files) __init__
      = ({| config := Registry (yaml_overlay pre (module_options pathsep int str));
            attrs := ∅ |}, result) ∧
    (result = Return () ∨ ∃ key, result = Raise (unrecognized key)).
Proof.
  rewrite bind_run, define_options_registry.
  set (self := {| config := Registry (module_options pathsep int str); attrs := ∅ |}).
  destruct (load_yaml_prefix fuelrc environ files self _ eq_refl) as [pre Hpre].
  assert (Hout : snd (load_yaml fuelrc environ files self) = Return () ∨
                 ∃ key, snd (load_yaml fuelrc environ files self)
                        = Raise (unrecognized key)).
  { unfold load_yaml. destruct (files !! yaml_file fuelrc environ) as [items|].
    - by apply (load_items_outcome items self _ eq_refl).
    - by left. }
  destruct (load_yaml fuelrc environ files self) as [loaded result].
  simpl in Hpre, Hout. subst loaded. by exists pre, result.
Qed.

(** The coercion of [fuel_uses_theano] gives a boolean or the value
    error. *)
Lemma flag_coercion raw :
  (∃ b, _human_bool raw (VBool true) = Return (VBool b)) ∨
  (∃ msg, _human_bool raw (VBool true) = Raise (ValueError msg)).
Proof.
  destruct raw as [| b | n | s | l]; try (left; eexists; reflexivity).
  unfold _human_bool.
  destruct (String.length s =? 0)%nat; [left; by eexists|].
  destruct (_ || _); [left; by eexists|].
  destruct (_ || _); [left; by eexists|].
  right. by eexists.
Qed.

(** The read of [fuel_uses_theano] on the loaded instance. *)
Lemma flag_read pathsep int str pre environ :
  ∃ yaml,
    __getattr__ environ "fuel_uses_theano"
      {| config := Registry (yaml_overlay pre (module_options pathsep int str));
         attrs := ∅ |} =
    _human_bool
      match environ !! "FUEL_USES_THEANO" with
      | Some text => VStr text
      | None => match yaml with
                | Some raw => raw
                | None => VBool true
                end
      end (VBool true).
Proof.
  destruct (yaml_overlay_slots pre (module_options pathsep int str)
              "fuel_uses_theano" _ eq_refl) as [yaml Hy].
  exists yaml.
  erewrite getattr_registered; [|reflexivity|discriminate|exact Hy].
  rewrite first_match_sources. unfold from_environ. simpl.
  destruct (environ !! "FUEL_USES_THEANO"); simpl; [done|].
  by destruct yaml.
Qed.

Lemma override_floatX_raises environ theano self e :
  __getattr__ environ "fuel_uses_theano" self = Raise e →
  override_floatX environ theano self = (self, Raise e).
Proof.
  intros Hflag. unfold override_floatX. rewrite bind_run. unfold read.
  by rewrite Hflag.
Qed.

Lemma override_floatX_skips environ theano self flag :
  __getattr__ environ "fuel_uses_theano" self = Return flag →
  py_bool flag = false →
  override_floatX environ theano self = (self, Return ()).
Proof.
  intros Hflag Hfalse. unfold override_floatX. rewrite bind_run. unfold read.
  by rewrite Hflag, Hfalse.
Qed.

Lemma override_floatX_import_error environ self flag :
  __getattr__ environ "fuel_uses_theano" self = Return flag →
  py_bool flag = true →
  override_floatX environ None self = (self, Raise ImportError).
Proof.
  intros Hflag Htrue. unfold override_floatX. rewrite bind_run. unfold read.
  by rewrite Hflag, Htrue.
Qed.

Lemma module_init_run pathsep int str fuelrc environ files theano loaded :
  (define_options pathsep int str ;; load_yaml fuelrc environ files) __init__
    = (loaded, Return ()) →
  module_init pathsep int str fuelrc environ files theano =
  override_floatX environ theano loaded.
Proof.
  intros Hrun. unfold module_init, module_body.
  by rewrite bind_assoc_run, Hrun.
Qed.

(** All the ways the initialisation can end. *)
Lemma module_init_cases pathsep int str fuelrc environ files theano :
  ∃ pre,
    let m := yaml_overlay pre (module_options pathsep int str) in
    let loaded := {| config := Registry m; attrs := ∅ |} in
    (∃ msg, module_init pathsep int str fuelrc environ files theano
            = (loaded, Raise (ValueError msg))) ∨
    module_init pathsep int str fuelrc environ files theano
      = (loaded, Raise ImportError) ∨
    module_init pathsep int str fuelrc environ files theano
      = (loaded, Return ()) ∨
    (∃ x cs, m !! "floatX" = Some cs ∧
       module_init pathsep int str fuelrc environ files theano
       = ({| config := Registry (<["floatX" := with_default x cs]> m);
             attrs := ∅ |}, Return ())).
Proof.
  destruct (loaded_overlay pathsep int str fuelrc environ files)
    as (pre & result & Hrun & Hresult).
  exists pre. cbn zeta.
  destruct Hresult as [-> | [key ->]].
  - rewrite (module_init_run _ _ _ _ _ _ theano _ Hrun).
    destruct (flag_read pathsep int str pre environ) as [yaml Hflag].
    set (raw := match environ !! "FUEL_USES_THEANO" with
                | Some text => VStr text
                | None => match yaml with Some raw => raw | None => VBool true end
                end) in Hflag.
    destruct (flag_coercion raw) as [[b Hb] | [msg Hb]]; rewrite Hb in Hflag.
    + destruct b.
      * destruct theano as [x|].
        -- right. right. right.
           destruct (yaml_overlay_slots pre (module_options pathsep int str)
                       "floatX" _ eq_refl) as [yaml' Hy].
           eexists x, _. split; [exact Hy|].
           by eapply override_floatX_run.
        -- right. left. by eapply override_floatX_import_error.
      * right. right. left. by eapply override_floatX_skips.
    + left. exists msg. by apply override_floatX_raises.
  - left. eexists. unfold module_init, module_body.
    by rewrite bind_assoc_run, Hrun.
Qed.

Lemma module_options_dom pathsep int str :
  dom (module_options pathsep int str) =
  ({[ "data_path"; "default_seed"; "extra_downloaders"; "extra_converters";
      "floatX"; "fuel_uses_theano" ]} : gset string).
Proof.
  unfold module_options. rewrite !dom_insert_L, dom_empty_L. set_solver.
Qed.

(** X13. When [fuel_uses_theano] reads false after the overlay was
    loaded, the initialisation returns the loaded instance whether or not
    theano can be imported and whatever it would provide: theano is not
    consulted, and the default of [floatX] stays "float64". *)
Theorem module_init_without_theano (pathsep : ascii)
    (int str : pyval → except pyval) (fuelrc : string)
    (environ : gmap string string)
    (files : gmap string (list (string * pyval)))
    (loaded : Configuration) (flag : pyval) :
  (define_options pathsep int str ;; load_yaml fuelrc environ files) __init__
    = (loaded, Return ()) →
  __getattr__ environ "fuel_uses_theano" loaded = Return flag →
  py_bool flag = false →
  (∀ theano, module_init pathsep int str fuelrc environ files theano
             = (loaded, Return ())) ∧
  ∃ m yaml,
    config loaded = Registry m ∧
    m !! "floatX" =
      Some (Setting str (Some "FUEL_FLOATX") (Some (VStr "float64")) None yaml).
Proof.
  intros Hrun Hflag Hfalse. split.
  - intros theano. rewrite (module_init_run _ _ _ _ _ _ theano _ Hrun).
    by eapply override_floatX_skips.
  - destruct (loaded_floatX _ _ _ _ _ _ _ _ Hrun) as (m & yaml & -> & Hm).
    by exists m, yaml.
Qed.

Lemma module_init_without_theano_witness :
  snd (module_init ":" Return Return "/home/user/.fuelrc"
         {[ "FUEL_USES_THEANO" := "false" ]} ∅ None) = Return ().
Proof.
  pose (environ := ({[ "FUEL_USES_THEANO" := "false" ]} : gmap string string)).
  pose (loaded := {| config := Registry (module_options ":" Return Return);
                     attrs := ∅ |}).
  assert (Hrun : (define_options ":" Return Return ;;
                  load_yaml "/home/user/.fuelrc" environ ∅) __init__
                 = (loaded, Return ())).
  { by rewrite bind_run, define_options_registry. }
  assert (Hflag : __getattr__ environ "fuel_uses_theano" loaded
                  = Return (VBool false)) by reflexivity.
  destruct (module_init_without_theano ":" Return Return "/home/user/.fuelrc"
              environ ∅ loaded (VBool false) Hrun Hflag eq_refl)
    as [Hinit _].
  subst environ. by rewrite (Hinit None).
Defined.

(** X14. When [fuel_uses_theano] reads true and theano cannot be
    imported, the initialisation raises the import error and leaves the
    instance as the load left it. *)
Theorem module_init_theano_missing (pathsep : ascii)
    (int str : pyval → except pyval) (fuelrc : string)
    (environ : gmap string string)
    (files : gmap string (list (string * pyval)))
    (loaded : Configuration) (flag : pyval) :
  (define_options pathsep int str ;; load_yaml fuelrc environ files) __init__
    = (loaded, Return ()) →
  __getattr__ environ "fuel_uses_theano" loaded = Return flag →
  py_bool flag = true →
  module_init pathsep int str fuelrc environ files None
    = (loaded, Raise ImportError).
Proof.
  intros Hrun Hflag Htrue. rewrite (module_init_run _ _ _ _ _ _ None _ Hrun).
  by eapply override_floatX_import_error.
Qed.

Lemma module_init_theano_missing_witness :
  snd (module_init ":" Return Return "/home/user/.fuelrc" ∅ ∅ None)
  = Raise ImportError.
Proof.
  pose (loaded := {| config := Registry (module_options ":" Return Return);
                     attrs := ∅ |}).
  assert (Hrun : (define_options ":" Return Return ;;
                  load_yaml "/home/user/.fuelrc" ∅ ∅) __init__
                 = (loaded, Return ())).
  { by rewrite bind_run, define_options_registry. }
  assert (Hflag : __getattr__ ∅ "fuel_uses_theano" loaded
                  = Return (VBool true)) by reflexivity.
  by rewrite (module_init_theano_missing ":" Return Return "/home/user/.fuelrc"
                ∅ ∅ loaded (VBool true) Hrun Hflag eq_refl).
Defined.

(** X15. Where the overlay file, if there is one, parses to a mapping
    with string keys (what [files] holds), the initialisation, however it
    ends, returns or raises a value error or the import error, and it
    leaves an instance whose registry holds exactly the six options of the
    module and that has no other attribute. *)
Theorem module_init_outcomes (pathsep : ascii)
    (int str : pyval → except pyval) (fuelrc : string)
    (environ : gmap string string)
    (files : gmap string (list (string * pyval)))
    (theano : option pyval) :
  ∃ final m result,
    module_init pathsep int str fuelrc environ files theano = (final, result) ∧
    config final = Registry m ∧ attrs final = ∅ ∧
    dom m = ({[ "data_path"; "default_seed"; "extra_downloaders";
                "extra_converters"; "floatX"; "fuel_uses_theano" ]}
             : gset string) ∧
    (result = Return () ∨ (∃ msg, result = Raise (ValueError msg)) ∨
     result = Raise ImportError).
Proof.
  destruct (module_init_cases pathsep int str fuelrc environ files theano)
    as (pre & Hcases). cbn zeta in Hcases.
  assert (Hdom : dom (yaml_overlay pre (module_options pathsep int str)) =
            ({[ "data_path"; "default_seed"; "extra_downloaders";
                "extra_converters"; "floatX"; "fuel_uses_theano" ]}
             : gset string)).
  { by rewrite yaml_overlay_dom, module_options_dom. }
  destruct Hcases as [[msg ->] | [-> | [-> | (x & cs & Hcs & ->)]]];
    eexists _, _, _; (split; [reflexivity|]); cbn [config attrs];
    (split; [reflexivity|]); (split; [reflexivity|]).
  - split; [done|]. right. left. by exists msg.
  - split; [done|]. by right; right.
  - split; [done|]. by left.
  - split; [|by left]. rewrite dom_insert_lookup_L; [done | by eexists].
Qed.

(** X16. After a load that returned, the variable [FUEL_USES_THEANO]
    decides the flag whatever the overlay says: "0", "False" and "false"
    make the initialisation return without consulting theano; the empty
    string, "1", "True" and "true" make it import theano, which raises the
    import error where theano is missing; any other text makes the
    initialisation raise the value error. *)
Theorem module_flag_from_environment (pathsep : ascii)
    (int str : pyval → except pyval) (fuelrc : string)
    (environ : gmap string string)
    (files : gmap string (list (string * pyval)))
    (loaded : Configuration) (text : string) :
  (define_options pathsep int str ;; load_yaml fuelrc environ files) __init__
    = (loaded, Return ()) →
  environ !! "FUEL_USES_THEANO" = Some text →
  __getattr__ environ "fuel_uses_theano" loaded
    = _human_bool (VStr text) (VBool true) ∧
  (text ∈ ["0"; "False"; "false"] →
     ∀ theano, module_init pathsep int str fuelrc environ files theano
               = (loaded, Return ())) ∧
  (text ∈ [""; "1"; "True"; "true"] →
     module_init pathsep int str fuelrc environ files None
     = (loaded, Raise ImportError)) ∧
  (text ∉ [""; "1"; "True"; "true"; "0"; "False"; "false"] →
     ∃ msg, ∀ theano, module_init pathsep int str fuelrc environ files theano
                      = (loaded, Raise (ValueError msg))).
Proof.
  intros Hrun Henv.
  assert (Hflag : __getattr__ environ "fuel_uses_theano" loaded
                  = _human_bool (VStr text) (VBool true)).
  { destruct (loaded_overlay pathsep int str fuelrc environ files)
      as (pre & result & Hrun' & _).
    rewrite Hrun in Hrun'. injection Hrun' as -> _.
    destruct (flag_read pathsep int str pre environ) as [yaml Hread].
    by rewrite Henv in Hread. }
  split; [exact Hflag|]. split; [|split].
  - intros Hin theano. rewrite (module_init_run _ _ _ _ _ _ theano _ Hrun).
    apply (override_floatX_skips environ theano loaded (VBool false)); [|done].
    rewrite Hflag. rewrite !elem_of_cons, elem_of_nil in Hin.
    by destruct Hin as [-> | [-> | [-> | []]]].
  - intros Hin. rewrite (module_init_run _ _ _ _ _ _ None _ Hrun).
    apply (override_floatX_import_error environ loaded (VBool true)); [|done].
    rewrite Hflag. rewrite !elem_of_cons, elem_of_nil in Hin.
    by destruct Hin as [-> | [-> | [-> | [-> | []]]]].
  - intros Hout. destruct (human_bool_other text (VBool true) Hout) as [msg Hmsg].
    exists msg. intros theano.
    rewrite (module_init_run _ _ _ _ _ _ theano _ Hrun).
    apply override_floatX_raises. by rewrite Hflag.
Qed.

Lemma module_flag_from_environment_witness :
  module_init ":" Return Return "/home/user/.fuelrc"
    {[ "FUEL_USES_THEANO" := "0" ]} ∅ None
  = ({| config := Registry (module_options ":" Return Return); attrs := ∅ |},
     Return ()).
Proof.
  pose (environ := ({[ "FUEL_USES_THEANO" := "0" ]} : gmap string string)).
  pose (loaded := {| config := Registry (module_options ":" Return Return);
                     attrs := ∅ |}).
  assert (Hrun : (define_options ":" Return Return ;;
                  load_yaml "/home/user/.fuelrc" environ ∅) __init__
                 = (loaded, Return ())).
  { by rewrite bind_run, define_options_registry. }
  assert (Henv : environ !! "FUEL_USES_THEANO" = Some "0") by reflexivity.
  destruct (module_flag_from_environment ":" Return Return "/home/user/.fuelrc"
              environ ∅ loaded "0" Hrun Henv) as (_ & Hoff & _).
  apply Hoff. rewrite !elem_of_cons. auto.
Defined.

(** X17. After an initialisation that returned, [data_path], the one
    option without a default, reads as the list of the pieces of
    [FUEL_DATA_PATH] when that variable is set, else as the parse of its
    YAML value when the overlay gave one, and else raises the
    configuration error. *)
Theorem module_data_path (pathsep : ascii)
    (int str : pyval → except pyval) (fuelrc : string)
    (environ : gmap string string)
    (files : gmap string (list (string * pyval)))
    (theano : option pyval) (final : Configuration)
    (environ' : gmap string string) :
  module_init pathsep int str fuelrc environ files theano
    = (final, Return ()) →
  (∀ text, environ' !! "FUEL_DATA_PATH" = Some text →
     __getattr__ environ' "data_path" final =
       Return (VList (VStr <$> split pathsep text))) ∧
  (∀ raw, environ' !! "FUEL_DATA_PATH" = None →
     yaml_of "data_path" final = Some raw →
     __getattr__ environ' "data_path" final =
       Return (multiple_paths_parser pathsep raw)) ∧
  (environ' !! "FUEL_DATA_PATH" = None → yaml_of "data_path" final = None →
     __getattr__ environ' "data_path" final =
       Raise (ConfigurationError
                "Configuration not set and no default provided: data_path.")).
Proof.
  intros Hinit.
  assert (∃ m yaml, config final = Registry m ∧
            m !! "data_path" =
              Some (Setting (λ v, Return (multiple_paths_parser pathsep v))
                      (Some "FUEL_DATA_PATH") None None yaml))
    as (m & yaml & Hc & Hm).
  { destruct (module_init_cases pathsep int str fuelrc environ files theano)
      as (pre & Hcases). cbn zeta in Hcases.
    destruct (yaml_overlay_slots pre (module_options pathsep int str)
                "data_path" _ eq_refl) as [yaml Hy].
    rewrite Hinit in Hcases.
    destruct Hcases as [[msg [=]] | [[=] | [[= ->] | (x & cs & Hcs & [= ->])]]].
    - by eexists _, yaml.
    - eexists _, yaml. split; [reflexivity|].
      by rewrite lookup_insert_ne. }
  assert (Hget : __getattr__ environ' "data_path" final =
            match first_match (sources environ'
                    (Setting (λ v, Return (multiple_paths_parser pathsep v))
                       (Some "FUEL_DATA_PATH") None None yaml)) with
            | Some raw => Return (multiple_paths_parser pathsep raw)
            | None => Raise (not_set "data_path")
            end).
  { by erewrite getattr_registered; [|exact Hc|discriminate|exact Hm]. }
  rewrite first_match_sources in Hget. unfold from_environ in Hget.
  simpl in Hget. unfold yaml_of. rewrite Hc. simpl. rewrite Hm. simpl.
  split; [|split].
  - intros text Henv. by rewrite Hget, Henv.
  - intros raw Henv ->. by rewrite Hget, Henv.
  - intros Henv ->. by rewrite Hget, Henv.
Qed.

Lemma module_data_path_witness :
  __getattr__ {[ "FUEL_DATA_PATH" := "/a:/b" ]} "data_path"
    (fst (module_init ":" Return Return "/home/user/.fuelrc"
            {[ "FUEL_USES_THEANO" := "0" ]} ∅ None))
  = Return (VList [VStr "/a"; VStr "/b"]).
Proof.
  pose (environ := ({[ "FUEL_USES_THEANO" := "0" ]} : gmap string string)).
  pose (final := {| config := Registry (module_options ":" Return Return);
                    attrs := ∅ |}).
  assert (Hinit : module_init ":" Return Return "/home/user/.fuelrc"
                    environ ∅ None = (final, Return ())) by reflexivity.
  destruct (module_data_path ":" Return Return "/home/user/.fuelrc" environ ∅
              None final {[ "FUEL_DATA_PATH" := "/a:/b" ]} Hinit)
    as (Henv & _).
  subst environ. rewrite Hinit. apply (Henv "/a:/b"). reflexivity.
Defined.

(** X18. When the overlay file holds a key that is none of the six
    options, the initialisation raises the value error that names the
    first such key in the order of iteration, after it stored the YAML
    values of the items before that key, whatever the environment says
    about theano and whether or not theano could be imported: the flag is
    not read and theano is not consulted. *)
Theorem module_init_unrecognized (pathsep : ascii)
    (int str : pyval → except pyval) (fuelrc : string)
    (environ : gmap string string)
    (files : gmap string (list (string * pyval)))
    (items : list (string * pyval)) :
  files !! yaml_file fuelrc environ = Some items →
  (∃ key, key ∈ items.*1 ∧
          key ∉ ({[ "data_path"; "default_seed"; "extra_downloaders";
                    "extra_converters"; "floatX"; "fuel_uses_theano" ]}
                 : gset string)) →
  ∃ pre key value post,
    items = (pre ++ (key, value) :: post)%list ∧
    Forall (λ item : string * pyval,
              item.1 ∈ ({[ "data_path"; "default_seed"; "extra_downloaders";
                           "extra_converters"; "floatX"; "fuel_uses_theano" ]}
                        : gset string)) pre ∧
    (key ∉ ({[ "data_path"; "default_seed"; "extra_downloaders";
               "extra_converters"; "floatX"; "fuel_uses_theano" ]}
            : gset string)) ∧
    ∀ theano,
      module_init pathsep int str fuelrc environ files theano =
      ({| config := Registry (yaml_overlay pre (module_options pathsep int str));
          attrs := ∅ |},
       Raise (ValueError ("Unrecognized config in YAML: " ++ key))).
Proof.
  intros Hfile (bad & Hin & Hbad).
  rewrite <- (module_options_dom pathsep int str) in Hbad.
  apply not_elem_of_dom in Hbad.
  destruct (first_unregistered (module_options pathsep int str) items)
    as (pre & key & value & post & -> & Hpre & Hkey); [by exists bad|].
  exists pre, key, value, post. split; [done|]. split; [|split].
  - eapply Forall_impl; [exact Hpre|]. intros item Hitem.
    rewrite <- (module_options_dom pathsep int str). by apply elem_of_dom.
  - rewrite <- (module_options_dom pathsep int str). by apply not_elem_of_dom.
  - intros theano. unfold module_init, module_body.
    rewrite bind_assoc_run, bind_run, define_options_registry.
    unfold load_yaml. rewrite Hfile.
    by erewrite load_items_unrecognized; [|reflexivity|exact Hpre|exact Hkey].
Qed.

Lemma module_init_unrecognized_witness :
  ∃ pre key final,
    Forall (λ item : string * pyval,
              item.1 ∈ ({[ "data_path"; "default_seed"; "extra_downloaders";
                           "extra_converters"; "floatX"; "fuel_uses_theano" ]}
                        : gset string)) pre ∧
    ∀ theano,
      module_init ":" Return Return "/home/user/.fuelrc" ∅
        {[ "/home/user/.fuelrc" := [("flaotX", VStr "float32")] ]} theano =
      (final, Raise (ValueError ("Unrecognized config in YAML: " ++ key))).
Proof.
  pose (files := ({[ "/home/user/.fuelrc" := [("flaotX", VStr "float32")] ]}
        : gmap string (list (string * pyval)))).
  assert (Hfile : files !! yaml_file "/home/user/.fuelrc" ∅ =
            Some [("flaotX", VStr "float32")]) by reflexivity.
  destruct (module_init_unrecognized ":" Return Return "/home/user/.fuelrc" ∅
              files [("flaotX", VStr "float32")] Hfile)
    as (pre & key & value & post & _ & Hpre & _ & Hinit).
  - exists "flaotX". split; [simpl; apply elem_of_cons; by left|].
    vm_compute. intros H. discriminate H.
  - by eexists pre, key, _.
Defined.
